(** * Elan: a wrapper around a dynamic stylesheet (src/elan.js)

    A shallow embedding of the methods of [Elan.prototype] and of the part of
    the host (the CSSOM rule list of a style sheet) they call, followed by
    the properties of these methods.

    Conventions of the embedding.
    - JavaScript strings are [string]s of the characters below U+0100, a
      character being its code.
    - JavaScript numbers are NaN, the two infinities and the integers that
      are doubles; fractional numbers are not represented.
    - An object is the list of its enumerable properties, in the order in
      which [for (k in o)] visits them; the loop body reads [o[k]], which is
      the value stored with [k] in that list.
    - A method that returns [this] is a computation of type [M unit]: the
      handle it returns is the state it leaves. *)

From Stdlib Require Import ZArith Lia Bool.
From Stdlib Require Import Strings.Ascii.
From stdpp Require Import base list strings pretty.

Local Open Scope Z_scope.
Set Warnings "-register-all".

(** ** JavaScript values *)

Inductive number : Type :=
| NaN
| PosInfinity
| NegInfinity
| Finite (z : Z).

Inductive value : Type :=
| VUndefined
| VNull
| VBool (b : bool)
| VNumber (n : number)
| VString (s : string)
| VFunction (source : string)
| VArray (elems : list value)
| VObject (props : list (string * value)).

(** The [typeof] operator. *)
Definition typeof (v : value) : string :=
  match v with
  | VUndefined => "undefined"
  | VNull => "object"
  | VBool _ => "boolean"
  | VNumber _ => "number"
  | VString _ => "string"
  | VFunction _ => "function"
  | VArray _ => "object"
  | VObject _ => "object"
  end.

(** The global [isNaN], on a number. *)
Definition isNaN (n : number) : bool :=
  match n with
  | NaN => true
  | _ => false
  end.

(** [v instanceof Array]. *)
Definition instanceof_Array (v : value) : bool :=
  match v with
  | VArray _ => true
  | _ => false
  end.

(** Truthiness of a string: every string but the empty one. *)
Definition truthy_string (s : string) : bool := negb (String.eqb s "").

(** The digits of a decimal numeral without its zeros at the end. *)
Fixpoint strip_zeros (s : string) : string :=
  match s with
  | EmptyString => EmptyString
  | String c rest =>
      let t := strip_zeros rest in
      if Ascii.eqb c "0" && String.eqb t "" then EmptyString else String c t
  end.

(** [c] rounds to the double [x]: four times [c] lies between [lo4] and
    [hi4], four times the two midpoints between [x] and the doubles next to
    it; a midpoint itself rounds to [x] when the mantissa of [x] is even. *)
Definition rounds_to (lo4 hi4 : Z) (inclusive : bool) (c : Z) : bool :=
  if inclusive then (lo4 <=? 4 * c) && (4 * c <=? hi4)
  else (lo4 <? 4 * c) && (4 * c <? hi4).

(** The integer with the fewest significant digits that rounds to [x], and
    of those with that many digits the one nearest to [x] (the one with an
    even last digit when two are as near): the multiples of [10 ^ p] around
    [x] are tried from the highest power down. *)
Fixpoint shortest_decimal (p : nat) (x lo4 hi4 : Z) (inclusive : bool) : Z :=
  match p with
  | O => x
  | S p' =>
      let d := 10 ^ Z.of_nat p in
      let below := x / d * d in
      let above := below + d in
      match rounds_to lo4 hi4 inclusive below, rounds_to lo4 hi4 inclusive above with
      | true, true =>
          if x - below <? above - x then below
          else if above - x <? x - below then above
          else if Z.even (x / d) then below else above
      | true, false => below
      | false, true => above
      | false, false => shortest_decimal p' x lo4 hi4 inclusive
      end
  end.

(** [String(x)] for a positive integer [x] that is a double.  Below 2^53
    the digits of [x]; from there on the digits of the shortest decimal
    that rounds to [x], followed by zeros when there are at most 21 digits
    in all, and written with an exponent otherwise. *)
Definition positive_to_string (x : Z) : string :=
  if x <? 2 ^ 53 then pretty x
  else
    let u := 2 ^ (Z.log2 x - 52) in
    let m := x / u in
    let lo4 := 4 * x - (if m =? 2 ^ 52 then u else 2 * u) in
    let hi4 := 4 * x + 2 * u in
    let c :=
      shortest_decimal (String.length (pretty x) - 1) x lo4 hi4 (Z.even m) in
    let digits := pretty c in
    let n := String.length digits in
    if (n <=? 21)%nat then digits
    else
      match strip_zeros digits with
      | EmptyString => EmptyString
      | String d1 EmptyString => String d1 ("e+" +:+ pretty (n - 1)%nat)
      | String d1 rest =>
          String d1 ("." +:+ rest +:+ "e+" +:+ pretty (n - 1)%nat)
      end.

(** [String(n)].  An integer [z] stands for a number when it is a double:
    every integer below 2^53 in magnitude is, and above that the multiples
    of a power of two that 53 bits and the exponent can hold. *)
Definition number_to_string (n : number) : string :=
  match n with
  | NaN => "NaN"
  | PosInfinity => "Infinity"
  | NegInfinity => "-Infinity"
  | Finite z =>
      if z <? 0 then "-" +:+ positive_to_string (- z) else positive_to_string z
  end.

(** [Array.prototype.join]. *)
Fixpoint join (sep : string) (parts : list string) : string :=
  match parts with
  | [] => ""
  | [p] => p
  | p :: rest => p +:+ sep +:+ join sep rest
  end.

(** The conversion to a string that [+] applies to its operand when the
    other one is a string.  Objects are plain ones (no [toString] of their
    own); an array joins its elements with a comma, [null] and [undefined]
    elements giving the empty string. *)
Fixpoint ToString (v : value) : string :=
  match v with
  | VUndefined => "undefined"
  | VNull => "null"
  | VBool true => "true"
  | VBool false => "false"
  | VNumber n => number_to_string n
  | VString s => s
  | VFunction source => source
  | VArray elems =>
      join ","
        (map (fun e => match e with
                       | VUndefined | VNull => ""
                       | _ => ToString e
                       end) elems)
  | VObject _ => "[object Object]"
  end.

(** The (key, value) pairs that [for (k in v)] visits, in order, each with
    the value [v[k]].  An array enumerates its indices, written in decimal;
    [null] and [undefined] enumerate nothing. *)
Definition for_in (v : value) : list (string * value) :=
  match v with
  | VObject props => props
  | VArray elems => imap (fun i e => (pretty i, e)) elems
  | _ => []
  end.

(** ** Characters and the property-name conversion *)

Definition is_lower (c : ascii) : bool :=
  let n := N_of_ascii c in ((97 <=? n) && (n <=? 122))%N.

Definition is_upper (c : ascii) : bool :=
  let n := N_of_ascii c in ((65 <=? n) && (n <=? 90))%N.

(** The uppercase letters among the characters below 256: A to Z, and the
    letters from U+00C0 to U+00DE (the multiplication sign U+00D7 is not
    one). *)
Definition is_uppercase (c : ascii) : bool :=
  let n := N_of_ascii c in
  ((65 <=? n) && (n <=? 90)
   || (192 <=? n) && (n <=? 222) && negb (n =? 215))%N.

(** The lowercase letter of an uppercase one is 32 further. *)
Definition lower_char (c : ascii) : ascii :=
  if is_uppercase c then ascii_of_N (N_of_ascii c + 32) else c.

(** [s.toLowerCase()]. *)
Fixpoint toLowerCase (s : string) : string :=
  match s with
  | EmptyString => EmptyString
  | String c rest => String (lower_char c) (toLowerCase rest)
  end.

(** [s.replace(/([a-z])([A-Z])/g, "$1-$2")]: the string is scanned from the
    left; where the next two characters match, they are replaced by the two
    of them around a hyphen and the scan goes on after them; elsewhere one
    character is copied. *)
Fixpoint replace_camel (s : string) : string :=
  match s with
  | EmptyString => EmptyString
  | String c1 tl =>
      match tl with
      | EmptyString => String c1 EmptyString
      | String c2 rest =>
          if is_lower c1 && is_upper c2
          then String c1 (String "-" (String c2 (replace_camel rest)))
          else String c1 (replace_camel tl)
      end
  end.

(** Line 124: [prop.replace(/([a-z])([A-Z])/g, "$1-$2").toLowerCase()]. *)
Definition kebab (prop : string) : string := toLowerCase (replace_camel prop).

(** ** The host: a style sheet and its rule list *)

(** A rule of the rule list: its selector text and its declaration text,
    kept as they were given (the host's rewriting of the text into its
    normal form is not part of the embedding, nor is its refusal of a text
    that is not a rule). *)
Record CSSRule : Type := mkRule {
  selectorText : string;
  style : string
}.

(** The style sheet [this.sheet]: the rule list ([cssRules], of which
    [rules] is the legacy alias, both live views of the same list) and which
    of the methods probed by the source it has. *)
Record CSSStyleSheet : Type := mkSheet {
  cssRules : list CSSRule;
  has_insertRule : bool;
  has_addRule : bool;
  has_removeRule : bool
}.

(** An [Elan] object: the sheet and the text children of the style element
    ([this.HTMLStyleElement]). *)
Record Elan : Type := mkElan {
  sheet : CSSStyleSheet;
  HTMLStyleElement : list string
}.

Definition set_cssRules (rs : list CSSRule) (h : Elan) : Elan :=
  mkElan
    (mkSheet rs (has_insertRule (sheet h)) (has_addRule (sheet h))
       (has_removeRule (sheet h)))
    (HTMLStyleElement h).

Definition appendChild (text : string) (h : Elan) : Elan :=
  mkElan (sheet h) (HTMLStyleElement h ++ [text]).

(** What a call can throw: [new Error(message)] of the source, the
    [TypeError] of a property read on [undefined], and the [IndexSizeError]
    of the rule list. *)
Inductive exn : Type :=
| Error (message : string)
| TypeError
| IndexSizeError.

(** The outcome of a call: it returns or throws, and in both cases leaves a
    handle, with the mutations made so far. *)
Inductive outcome (A : Type) : Type :=
| Return (a : A) (h : Elan)
| Throw (e : exn) (h : Elan).
Arguments Return {A} a h.
Arguments Throw {A} e h.

Definition M (A : Type) : Type := Elan -> outcome A.

Definition ret {A} (a : A) : M A := fun h => Return a h.

Definition throw {A} (e : exn) : M A := fun h => Throw e h.

(** Sequencing: a throw ends the call, with the handle as it is then. *)
Definition bind {A B} (k : A -> M B) (m : M A) : M B :=
  fun h =>
    match m h with
    | Return a h' => k a h'
    | Throw e h' => Throw e h'
    end.

#[export] Instance M_ret : MRet M := @ret.
#[export] Instance M_bind : MBind M := @bind.

Definition final {A} (o : outcome A) : Elan :=
  match o with
  | Return _ h => h
  | Throw _ h => h
  end.

Definition thrown {A} (o : outcome A) : option exn :=
  match o with
  | Return _ _ => None
  | Throw e _ => Some e
  end.

(** Modelled from the spec: the rule-list primitives of the host, which the
    source calls and does not define.  An index argument is an
    [unsigned long]: NaN and the infinities convert to 0, an integer is
    taken modulo 2^32. *)
Definition to_unsigned_long (n : number) : Z :=
  match n with
  | Finite z => z mod 2 ^ 32
  | _ => 0
  end.

(** Modelled from the spec: [rules[index]], [undefined] ([None]) when
    [index] is not the position of a rule. *)
Definition item (index : number) (rs : list CSSRule) : option CSSRule :=
  match index with
  | Finite z => if 0 <=? z then rs !! Z.to_nat z else None
  | _ => None
  end.

(** The list [rs] with [r] put at position [i]. *)
Definition insert_at (i : nat) (r : CSSRule) (rs : list CSSRule)
  : list CSSRule :=
  take i rs ++ r :: drop i rs.

(** Modelled from the spec: [sheet.insertRule(rule, index)], an ordered
    insertion that raises when [index] is beyond the end of the list.  The
    rule text [selector + " {" + rules + "}"] is given by its two parts,
    which the host reads back from it. *)
Definition sheet_insertRule (selector rules : string) (index : number)
  : M unit :=
  fun h =>
    let rs := cssRules (sheet h) in
    let i := to_unsigned_long index in
    if Z.of_nat (length rs) <? i then Throw IndexSizeError h
    else
      Return tt
        (set_cssRules (insert_at (Z.to_nat i) (mkRule selector rules) rs) h).

(** Modelled from the spec: the legacy [sheet.addRule(selector, rules,
    index)], the same insertion. *)
Definition sheet_addRule (selector rules : string) (index : number)
  : M unit :=
  sheet_insertRule selector rules index.

(** Modelled from the spec: [sheet.deleteRule(index)], which raises when
    there is no rule at [index]. *)
Definition sheet_deleteRule (index : number) : M unit :=
  fun h =>
    let rs := cssRules (sheet h) in
    let i := to_unsigned_long index in
    if Z.of_nat (length rs) <=? i then Throw IndexSizeError h
    else Return tt (set_cssRules (delete (Z.to_nat i) rs) h).

(** Modelled from the spec: the legacy [sheet.removeRule(index)], the same
    removal. *)
Definition sheet_removeRule (index : number) : M unit :=
  sheet_deleteRule index.

(** The rule list can hold what its [length], an [unsigned long], can
    count. *)
Definition sheet_ok (h : Elan) : Prop :=
  Z.of_nat (length (cssRules (sheet h))) < 2 ^ 32.

(** ** The methods of [Elan.prototype] *)

(** [typeof index === "number" && !isNaN(index)], with the number when the
    test holds. *)
Definition valid_index (index : value) : option number :=
  match index with
  | VNumber n => if String.eqb (typeof index) "number" && negb (isNaN n)
                 then Some n else None
  | _ => None
  end.

(** Line 54: the index that [addRule] goes on with, the one it was given
    when that passes the test and the length of the rule list otherwise. *)
Definition effective_index (index : value) (h : Elan) : number :=
  match valid_index index with
  | Some n => n
  | None => Finite (Z.of_nat (length (cssRules (sheet h))))
  end.

(** [addRule], lines 53-65.  In the last branch the text node is added to
    the style element; the rule list of the embedding is left as it is. *)
Definition addRule (selector rules : string) (index : value) : M unit :=
  fun h =>
    let index := effective_index index h in
    if has_insertRule (sheet h) then
      sheet_insertRule selector rules index h
    else if has_addRule (sheet h) then
      sheet_addRule selector rules index h
    else
      Return tt (appendChild (selector +:+ "{" +:+ rules +:+ "}") h).

(** [removeRule], lines 73-81.  The second test is on a string literal. *)
Definition removeRule (index : number) : M unit :=
  fun h =>
    if has_removeRule (sheet h) then
      sheet_removeRule index h
    else if truthy_string "deleteRule" then
      sheet_deleteRule index h
    else
      Return tt h.

(** The loop of [clearRules]: [n] iterations are left, the next one with
    [i = n - 1]. *)
Fixpoint clearRules_loop (n : nat) : M unit :=
  match n with
  | O => ret tt
  | S i => removeRule (Finite (Z.of_nat i)) ;; clearRules_loop i
  end.

(** [clearRules], lines 88-96. *)
Definition clearRules : M unit :=
  fun h => clearRules_loop (length (cssRules (sheet h))) h.

(** Lines 128-134: what one property of a block adds to [rules]. *)
Definition add_property (rules : string) (entry : string * value) : string :=
  let proplist := entry.2 in
  let prop := kebab entry.1 in
  if String.eqb (typeof proplist) "string" then
    rules +:+ prop +:+ ":" +:+ ToString proplist +:+ ";"
  else if instanceof_Array proplist then
    fold_left (fun rules e => rules +:+ prop +:+ ":" +:+ ToString e +:+ ";")
      (match proplist with VArray elems => elems | _ => [] end) rules
  else rules.

(** Lines 120-135: the loop over the properties of a block. *)
Definition add_block (rules : string) (block : value) : string :=
  fold_left add_property (for_in block) rules.

(** Lines 113-138: the loop over the selectors, with the variable [rules]
    of the enclosing function. *)
Fixpoint addCSS_loop (entries : list (string * value)) (index : value)
  (rules : string) : M unit :=
  match entries with
  | [] => ret tt
  | (selector, block) :: rest =>
      if negb (String.eqb (typeof block) "object") then
        throw (Error ("Invalid style block " +:+ selector +:+ ":" +:+ ToString block))
      else
        let rules := add_block rules block in
        addRule selector rules index ;; addCSS_loop rest index rules
  end.

(** [addCSS], lines 105-141. *)
Definition addCSS (css : value) (index : value) : M unit :=
  if negb (String.eqb (typeof css) "object") then
    throw (Error ("Invalid CSS object " +:+ ToString css))
  else
    addCSS_loop (for_in css) index "".

(** The loop of [removeCSS] without an index, lines 158-162: [n] iterations
    are left, the next one at [i]; [rules] is the live rule list. *)
Fixpoint removeCSS_loop (selector : string) (n i : nat) : M unit :=
  match n with
  | O => ret tt
  | S n' =>
      fun h =>
        match item (Finite (Z.of_nat i)) (cssRules (sheet h)) with
        | None => Throw TypeError h
        | Some r =>
            if String.eqb (selectorText r) selector then
              (removeRule (Finite (Z.of_nat i)) ;;
               removeCSS_loop selector n' (S i)) h
            else removeCSS_loop selector n' (S i) h
        end
  end.

(** [removeCSS], lines 150-166. *)
Definition removeCSS (selector : string) (index : value) : M unit :=
  fun h =>
    match valid_index index with
    | Some n =>
        match item n (cssRules (sheet h)) with
        | None => Throw TypeError h
        | Some r =>
            if String.eqb (selectorText r) selector then removeRule n h
            else Return tt h
        end
    | None =>
        removeCSS_loop selector (length (cssRules (sheet h))) 0 h
    end.

(** ** Notions used in the statements *)

(** The index, as the host reads it, is not the position of a rule. *)
Definition out_of_bounds (index : number) (rs : list CSSRule) : Prop :=
  Z.of_nat (length rs) <= to_unsigned_long index.

(** The removal primitive that [removeRule] calls on the sheet of [h]. *)
Definition removal_primitive (h : Elan) : number -> M unit :=
  if has_removeRule (sheet h) then sheet_removeRule else sheet_deleteRule.

(** The calls of [removeRule] at the given indices, one after the other. *)
Definition removals (indices : list nat) : M unit :=
  foldr (fun i k => removeRule (Finite (Z.of_nat i)) ;; k) (mret tt) indices.

(** A handle as the constructor leaves it (one empty text child), on a
    sheet with [insertRule] and [deleteRule], holding the rules [rs]. *)
Definition handle_of (rs : list CSSRule) : Elan :=
  mkElan (mkSheet rs true false false) [""].

(** A rule with the given selector and an empty declaration text. *)
Definition bare (selector : string) : CSSRule := mkRule selector "".

(** One declaration, [name:value;]. *)
Definition segment (name v : string) : string := name +:+ ":" +:+ v +:+ ";".

(** The strings of a list, one after the other. *)
Definition concat_all (parts : list string) : string :=
  foldr String.append "" parts.
Arguments concat_all : simpl never.

(** The values for which a property value gives a declaration: a string
    gives itself, an array its entries in order, another value nothing. *)
Definition declared_values (v : value) : list string :=
  match v with
  | VString s => [s]
  | VArray elems => ToString <$> elems
  | _ => []
  end.

(** A property value that gives a declaration: a string or an array. *)
Definition declares (v : value) : bool :=
  String.eqb (typeof v) "string" || instanceof_Array v.

(** The declaration text of one property, and of one block, alone. *)
Definition property_text (entry : string * value) : string :=
  concat_all (segment (kebab entry.1) <$> declared_values entry.2).

Definition block_text (block : value) : string :=
  concat_all (property_text <$> for_in block).

(** The rules that the loop over the selectors hands to [addRule], in
    order, when the variable [rules] holds [rules] at its start. *)
Fixpoint added_rules (rules : string) (entries : list (string * value))
  : list CSSRule :=
  match entries with
  | [] => []
  | (selector, block) :: rest =>
      mkRule selector (add_block rules block)
      :: added_rules (add_block rules block) rest
  end.

(** The conversion of a property name in the words of the specification: a
    hyphen between each lowercase letter and an uppercase letter that
    follows it, then the whole in lowercase. *)
Definition starts_upper (s : string) : bool :=
  match s with
  | String c _ => is_upper c
  | EmptyString => false
  end.

Fixpoint hyphenate (s : string) : string :=
  match s with
  | EmptyString => EmptyString
  | String c rest =>
      String c
        (if is_lower c && starts_upper rest
         then String "-" (hyphenate rest)
         else hyphenate rest)
  end.

Definition kebab_case (name : string) : string := toLowerCase (hyphenate name).

(** Some character of [s] is an uppercase letter. *)
Fixpoint has_upper (s : string) : bool :=
  match s with
  | EmptyString => false
  | String c rest => is_upper c || has_upper rest
  end.

(** Some character of [s] is an uppercase letter, of those below 256. *)
Fixpoint has_uppercase (s : string) : bool :=
  match s with
  | EmptyString => false
  | String c rest => is_uppercase c || has_uppercase rest
  end.

(** [p] is a prefix of [s]; [p] occurs in [s]. *)
Fixpoint starts_with (p s : string) : bool :=
  match p, s with
  | EmptyString, _ => true
  | String a p', String b s' => Ascii.eqb a b && starts_with p' s'
  | String _ _, EmptyString => false
  end.

Fixpoint occurs_in (p s : string) : bool :=
  starts_with p s
  || match s with
     | EmptyString => false
     | String _ s' => occurs_in p s'
     end.

(** The rule list of [h] can take [n] more rules. *)
Definition room_for (n : nat) (h : Elan) : Prop :=
  Z.of_nat (length (cssRules (sheet h)) + n) < 2 ^ 32.

(** The value of every entry is of type object. *)
Definition all_objects (entries : list (string * value)) : Prop :=
  Forall (fun entry => typeof entry.2 = "object") entries.

(** The index is omitted, is not of type number, or is NaN. *)
Definition no_index (index : value) : Prop :=
  typeof index <> "number" \/ index = VNumber NaN.

(** ** [toString] *)

(** The characters that [trim] takes off an end of a string: the white
    space and the line ends among the characters below 256 (tab, line feed,
    vertical tab, form feed, carriage return, space, no-break space). *)
Definition is_space (c : ascii) : bool :=
  let n := N_of_ascii c in
  ((9 <=? n) && (n <=? 13) || (n =? 32) || (n =? 160))%N.

Fixpoint trim_start (s : string) : string :=
  match s with
  | EmptyString => EmptyString
  | String c rest => if is_space c then trim_start rest else s
  end.

Fixpoint trim_end (s : string) : string :=
  match s with
  | EmptyString => EmptyString
  | String c rest =>
      let t := trim_end rest in
      if is_space c && String.eqb t "" then EmptyString else String c t
  end.

(** [s.trim()]. *)
Definition trim (s : string) : string := trim_start (trim_end s).

(** The string of the line feed alone, written ["\n"] in the source. *)
Definition newline : string := String "010" EmptyString.

Section Serialisation.

(** The serialised text [rule.cssText] that the host gives for a rule; the
    source reads it and does not define it. *)
Variable cssText : CSSRule -> string.

(** The loop of [toString], lines 177-179: [n] iterations are left, the next
    one at [i], with [text] built so far. *)
Fixpoint toString_loop (n i : nat) (text : string) : M string :=
  match n with
  | O => ret text
  | S n' =>
      fun h =>
        match item (Finite (Z.of_nat i)) (cssRules (sheet h)) with
        | None => Throw TypeError h
        | Some r => toString_loop n' (S i) (text +:+ cssText r +:+ newline) h
        end
  end.

(** [toString], lines 173-182. *)
Definition toString : M string :=
  fun h =>
    (text ← toString_loop (length (cssRules (sheet h))) 0 "";
     ret (trim text)) h.

End Serialisation.

(** ** The constructor *)

(** Truthiness of a value. *)
Definition truthy (v : value) : bool :=
  match v with
  | VUndefined | VNull => false
  | VBool b => b
  | VNumber NaN => false
  | VNumber (Finite z) => negb (z =? 0)
  | VNumber _ => true
  | VString s => truthy_string s
  | VFunction _ | VArray _ | VObject _ => true
  end.

(** Lines 28-36 of the constructor: the calls of [style.setAttribute] that
    it makes, in order, each with its two arguments.  (The rest of the
    constructor creates the style element with one empty text child, puts it
    at the end of the head of the document and keeps its sheet; the
    document is not part of the embedding.) *)
Definition constructor_setAttribute (attr val : value)
  : list (string * value) :=
  (if String.eqb (typeof attr) "string" && truthy val
   then [(ToString attr, val)] else [])
  ++ (if String.eqb (typeof attr) "object" then for_in attr else []).

(** ** Notions used in the statements about the rest of the code *)

(** The rule has the selector text [selector]. *)
Definition selects (selector : string) (r : CSSRule) : bool :=
  String.eqb (selectorText r) selector.

(** The rules of a list that do not have the selector text [selector]. *)
Definition others (selector : string) (rs : list CSSRule) : list CSSRule :=
  List.filter (fun r => negb (selects selector r)) rs.

(** The first and the last character of a string are white space. *)
Definition starts_space (s : string) : bool :=
  match s with
  | EmptyString => false
  | String c _ => is_space c
  end.

Fixpoint ends_space (s : string) : bool :=
  match s with
  | EmptyString => false
  | String c EmptyString => is_space c
  | String _ rest => ends_space rest
  end.

(** The serialised text of a rule as the text given to [insertRule]. *)
Definition text_as_given (r : CSSRule) : string :=
  selectorText r +:+ " {" +:+ style r +:+ "}".

(** * Properties of the embedding *)

(** ** Strings *)

Section Strings.

Lemma append_assoc (s1 s2 s3 : string) :
  (s1 +:+ s2) +:+ s3 = s1 +:+ (s2 +:+ s3).
Proof.
  induction s1 as [|c s1 IH]; [reflexivity|].
  change (String c ((s1 +:+ s2) +:+ s3) = String c (s1 +:+ (s2 +:+ s3))).
  by rewrite IH.
Qed.

Lemma append_nil_r (s : string) : s +:+ "" = s.
Proof.
  induction s as [|c s IH]; [reflexivity|].
  change (String c (s +:+ "") = String c s).
  by rewrite IH.
Qed.

Lemma append_cons (c : ascii) (s1 s2 : string) :
  String c s1 +:+ s2 = String c (s1 +:+ s2).
Proof. reflexivity. Qed.

End Strings.

(** ** The rule list and the monad *)

Section Host.

Implicit Types (h : Elan) (rs : list CSSRule) (r : CSSRule).

Lemma bind_unfold {A B} (m : M A) (k : A -> M B) h :
  (m ≫= k) h =
  match m h with
  | Return a h' => k a h'
  | Throw e h' => Throw e h'
  end.
Proof. reflexivity. Qed.

Lemma set_cssRules_twice rs1 rs2 h :
  set_cssRules rs1 (set_cssRules rs2 h) = set_cssRules rs1 h.
Proof. reflexivity. Qed.

Lemma set_cssRules_same h : set_cssRules (cssRules (sheet h)) h = h.
Proof. by destruct h as [[] ?]. Qed.

Lemma cssRules_set rs h : cssRules (sheet (set_cssRules rs h)) = rs.
Proof. reflexivity. Qed.

Lemma to_unsigned_long_small z :
  0 <= z < 2 ^ 32 -> to_unsigned_long (Finite z) = z.
Proof. intros Hz. unfold to_unsigned_long. by apply Z.mod_small. Qed.

Lemma drop_delete {A} (l : list A) (i : nat) :
  (i <= length l)%nat -> drop i (delete i l) = drop (S i) l.
Proof.
  intros Hi. rewrite delete_take_drop.
  apply drop_app_length'. by rewrite length_take_le.
Qed.

Lemma insert_at_lookup i r rs :
  (i <= length rs)%nat -> insert_at i r rs !! i = Some r.
Proof.
  intros Hi. unfold insert_at.
  apply list_lookup_middle. by rewrite length_take_le.
Qed.

Lemma insert_at_end r rs : insert_at (length rs) r rs = rs ++ [r].
Proof. unfold insert_at. by rewrite take_ge, drop_ge. Qed.

Lemma length_insert_at i r rs :
  length (insert_at i r rs) = S (length rs).
Proof.
  unfold insert_at.
  rewrite length_app, length_cons, length_take, length_drop. lia.
Qed.

(** Both branches of [removeRule] run the removal of the host. *)
Lemma removeRule_primitive index h :
  removeRule index h = sheet_deleteRule index h.
Proof.
  unfold removeRule, sheet_removeRule.
  by destruct (has_removeRule (sheet h)).
Qed.

Lemma removeRule_at (i : nat) h :
  sheet_ok h ->
  (i < length (cssRules (sheet h)))%nat ->
  removeRule (Finite (Z.of_nat i)) h =
  Return tt (set_cssRules (delete i (cssRules (sheet h))) h).
Proof.
  unfold sheet_ok. intros Hok Hi.
  rewrite removeRule_primitive. unfold sheet_deleteRule.
  rewrite to_unsigned_long_small by lia.
  destruct (Z.leb_spec (Z.of_nat (length (cssRules (sheet h)))) (Z.of_nat i));
    [lia|].
  by rewrite Nat2Z.id.
Qed.

Lemma item_nat (i : nat) rs : item (Finite (Z.of_nat i)) rs = rs !! i.
Proof.
  unfold item. destruct (Z.leb_spec 0 (Z.of_nat i)); [|lia].
  by rewrite Nat2Z.id.
Qed.

(** With a primitive to insert, a valid position gets the rule. *)
Lemma addRule_at selector rules (n : number) (index : value) h :
  has_insertRule (sheet h) || has_addRule (sheet h) = true ->
  valid_index index = Some n ->
  to_unsigned_long n <= Z.of_nat (length (cssRules (sheet h))) ->
  addRule selector rules index h =
  Return tt
    (set_cssRules
       (insert_at (Z.to_nat (to_unsigned_long n)) (mkRule selector rules)
          (cssRules (sheet h))) h).
Proof.
  intros Hprim Hidx Hle. unfold addRule, effective_index. rewrite Hidx.
  assert (sheet_insertRule selector rules n h =
          Return tt
            (set_cssRules
               (insert_at (Z.to_nat (to_unsigned_long n))
                  (mkRule selector rules) (cssRules (sheet h))) h)) as Hins.
  { unfold sheet_insertRule.
    by destruct (Z.ltb_spec (Z.of_nat (length (cssRules (sheet h))))
                   (to_unsigned_long n)); [lia|]. }
  destruct (has_insertRule (sheet h)); [done|].
  destruct (has_addRule (sheet h)); [done|discriminate].
Qed.

(** With a primitive to insert, a call without a valid index appends. *)
Lemma addRule_append selector rules (index : value) h :
  has_insertRule (sheet h) || has_addRule (sheet h) = true ->
  sheet_ok h ->
  valid_index index = None ->
  addRule selector rules index h =
  Return tt (set_cssRules (cssRules (sheet h) ++ [mkRule selector rules]) h).
Proof.
  unfold sheet_ok. intros Hprim Hok Hidx.
  unfold addRule, effective_index. rewrite Hidx.
  assert (sheet_insertRule selector rules
            (Finite (Z.of_nat (length (cssRules (sheet h))))) h =
          Return tt
            (set_cssRules (cssRules (sheet h) ++ [mkRule selector rules]) h))
    as Hins.
  { unfold sheet_insertRule. rewrite to_unsigned_long_small by lia.
    rewrite Z.ltb_irrefl, Nat2Z.id. by rewrite insert_at_end. }
  destruct (has_insertRule (sheet h)); [done|].
  destruct (has_addRule (sheet h)); [done|discriminate].
Qed.

End Host.

(** ** [addRule], [removeRule] and [clearRules] *)

Section Rules.

Implicit Types (h : Elan) (rs : list CSSRule) (r : CSSRule).

Lemma valid_index_not_number (index : value) :
  typeof index <> "number" \/ index = VNumber NaN ->
  valid_index index = None.
Proof.
  intros [Hty| ->]; [|reflexivity].
  destruct index; try reflexivity. by destruct Hty.
Qed.

(** C3, as the code has it: on a sheet that has [insertRule] or [addRule],
    a call of [addRule] whose index is omitted, is not of type number or is
    NaN appends the rule, which then sits at the position that was the
    length of the list; a call with an integer index between 0 and that
    length puts the rule at that position.  An infinite index is no reason
    to append: it is handed to the primitive, which reads it as 0. *)
Theorem addRule_position selector rules (index : value) h :
  has_insertRule (sheet h) || has_addRule (sheet h) = true ->
  sheet_ok h ->
  let rs := cssRules (sheet h) in
  let r := mkRule selector rules in
  (typeof index <> "number" \/ index = VNumber NaN ->
   addRule selector rules index h = Return tt (set_cssRules (rs ++ [r]) h)
   /\ (rs ++ [r]) !! length rs = Some r)
  /\ (forall z : Z,
        index = VNumber (Finite z) -> 0 <= z <= Z.of_nat (length rs) ->
        addRule selector rules index h =
        Return tt (set_cssRules (insert_at (Z.to_nat z) r rs) h)
        /\ insert_at (Z.to_nat z) r rs !! Z.to_nat z = Some r)
  /\ (index = VNumber PosInfinity \/ index = VNumber NegInfinity ->
      addRule selector rules index h = Return tt (set_cssRules (r :: rs) h)).
Proof.
  intros Hprim Hok rs r. subst rs r.
  pose proof Hok as Hlen. unfold sheet_ok in Hlen.
  split; [|split].
  - intros Hidx. split.
    + apply addRule_append; auto using valid_index_not_number.
    + by rewrite list_lookup_middle.
  - intros z -> Hz. split.
    + rewrite (addRule_at selector rules (Finite z)); auto.
      * by rewrite to_unsigned_long_small by lia.
      * rewrite to_unsigned_long_small by lia. lia.
    + apply insert_at_lookup. lia.
  - intros [-> | ->].
    + rewrite (addRule_at selector rules PosInfinity); auto. simpl. lia.
    + rewrite (addRule_at selector rules NegInfinity); auto. simpl. lia.
Qed.

Lemma addRule_position_witness :
  let h := handle_of [bare ".x"; bare ".y"] in
  (has_insertRule (sheet h) || has_addRule (sheet h) = true /\ sheet_ok h)
  /\ addRule ".n" "top:0;" VUndefined h =
     Return tt (set_cssRules [bare ".x"; bare ".y"; mkRule ".n" "top:0;"] h)
  /\ addRule ".n" "top:0;" (VNumber (Finite 1)) h =
     Return tt (set_cssRules [bare ".x"; mkRule ".n" "top:0;"; bare ".y"] h).
Proof.
  intros h.
  assert (has_insertRule (sheet h) || has_addRule (sheet h) = true) as Hprim
    by reflexivity.
  assert (sheet_ok h) as Hok by (unfold sheet_ok; simpl; lia).
  split; [by split|].
  destruct (addRule_position ".n" "top:0;" VUndefined h Hprim Hok)
    as [Happend _].
  destruct (addRule_position ".n" "top:0;" (VNumber (Finite 1)) h Hprim Hok)
    as [_ [Hat _]].
  split.
  - apply Happend. by left.
  - apply (Hat 1); [reflexivity | simpl; lia].
Defined.

(** C3, as the spec has it, fails: the index [Infinity], which is not a
    finite number, passes the test of line 54 and is not replaced by the
    length of the list; the rule is put in front of the two rules of the
    list and not after them. *)
Lemma addRule_infinite_index_not_appended :
  let h := handle_of [bare ".x"; bare ".y"] in
  effective_index (VNumber PosInfinity) h = PosInfinity
  /\ effective_index (VNumber PosInfinity) h <> Finite 2
  /\ addRule ".n" "" (VNumber PosInfinity) h =
     Return tt (set_cssRules [bare ".n"; bare ".x"; bare ".y"] h)
  /\ addRule ".n" "" (VNumber PosInfinity) h <>
     Return tt (set_cssRules ([bare ".x"; bare ".y"] ++ [bare ".n"]) h).
Proof. repeat split; (reflexivity || discriminate). Qed.

(** An index that the host reads as a position from the length of the
    list on makes [removeRule] throw what the removal primitive throws. *)
Lemma removeRule_throws (index : number) h :
  out_of_bounds index (cssRules (sheet h)) ->
  removal_primitive h index h = Throw IndexSizeError h
  /\ removeRule index h = Throw IndexSizeError h.
Proof.
  unfold out_of_bounds. intros Hout.
  assert (sheet_deleteRule index h = Throw IndexSizeError h) as Hdel.
  { unfold sheet_deleteRule.
    by destruct (Z.leb_spec (Z.of_nat (length (cssRules (sheet h))))
                   (to_unsigned_long index)); [|lia]. }
  assert (removal_primitive h index h = sheet_deleteRule index h) as Hprim.
  { unfold removal_primitive. by destruct (has_removeRule (sheet h)). }
  by rewrite removeRule_primitive, Hprim, Hdel.
Qed.

(** An integer index from the length of the list on, or a negative one, is
    out of bounds for the host when it is less than 2^32 away from the list
    (the host reads the index modulo 2^32). *)
Lemma out_of_bounds_integer (z : Z) rs :
  Z.of_nat (length rs) <= z < 2 ^ 32
  \/ Z.of_nat (length rs) - 2 ^ 32 <= z < 0 ->
  out_of_bounds (Finite z) rs.
Proof.
  unfold out_of_bounds, to_unsigned_long. intros [Hz|Hz].
  - rewrite Z.mod_small; lia.
  - rewrite <- (Z.mod_unique z (2 ^ 32) (-1) (z + 2 ^ 32)); lia.
Qed.

(** C6, as the code has it: with an integer index from the length of the
    rule list up to 2^32, or a negative one down to the length less 2^32,
    the removal primitive of the sheet throws the error of the rule list,
    and [removeRule] throws that same error, the rule list being as before.
    For every index [removeRule] does what the primitive does, whose error
    it never catches; the primitive reads the index modulo 2^32, and the
    infinities and NaN as 0. *)
Theorem removeRule_out_of_bounds (z : Z) h :
  Z.of_nat (length (cssRules (sheet h))) <= z < 2 ^ 32
  \/ Z.of_nat (length (cssRules (sheet h))) - 2 ^ 32 <= z < 0 ->
  removal_primitive h (Finite z) h = Throw IndexSizeError h
  /\ removeRule (Finite z) h = Throw IndexSizeError h
  /\ cssRules (sheet (final (removeRule (Finite z) h))) = cssRules (sheet h)
  /\ (forall index : number, removeRule index h = removal_primitive h index h).
Proof.
  intros Hz.
  destruct (removeRule_throws (Finite z) h) as [Hprim Hthrow];
    [by apply out_of_bounds_integer|].
  split; [exact Hprim|]. split; [exact Hthrow|].
  split; [by rewrite Hthrow|].
  intros index. rewrite removeRule_primitive. unfold removal_primitive.
  by destruct (has_removeRule (sheet h)).
Qed.

Lemma removeRule_out_of_bounds_witness :
  let h := handle_of [bare ".x"; bare ".y"] in
  (Z.of_nat (length (cssRules (sheet h))) <= 2 < 2 ^ 32
   \/ Z.of_nat (length (cssRules (sheet h))) - 2 ^ 32 <= 2 < 0)
  /\ removeRule (Finite 2) h = Throw IndexSizeError h.
Proof.
  intros h.
  assert (Z.of_nat (length (cssRules (sheet h))) <= 2 < 2 ^ 32
          \/ Z.of_nat (length (cssRules (sheet h))) - 2 ^ 32 <= 2 < 0) as Hz
    by (left; simpl; lia).
  split; [exact Hz|].
  exact (proj1 (proj2 (removeRule_out_of_bounds 2 h Hz))).
Defined.

(** C6, as the spec has it, fails: on a list of two rules the indices 2^32
    and [Infinity] are out of bounds, and [removeRule] removes the first
    rule and throws nothing. *)
Lemma removeRule_wrapped_index_removes :
  let h := handle_of [bare ".x"; bare ".y"] in
  removeRule (Finite 4294967296) h = Return tt (set_cssRules [bare ".y"] h)
  /\ removeRule PosInfinity h = Return tt (set_cssRules [bare ".y"] h)
  /\ thrown (removeRule (Finite 4294967296) h) = None.
Proof. repeat split; reflexivity. Qed.

Lemma clearRules_loop_drop (n : nat) h :
  sheet_ok h ->
  (n <= length (cssRules (sheet h)))%nat ->
  clearRules_loop n h = Return tt (set_cssRules (drop n (cssRules (sheet h))) h).
Proof.
  revert h. induction n as [|i IH]; intros h Hok Hn.
  - simpl. unfold ret. by rewrite drop_0, set_cssRules_same.
  - change (clearRules_loop (S i))
      with (removeRule (Finite (Z.of_nat i)) ;; clearRules_loop i).
    rewrite bind_unfold, removeRule_at by (auto; lia).
    rewrite IH.
    + by rewrite cssRules_set, set_cssRules_twice, drop_delete by lia.
    + unfold sheet_ok in *. rewrite cssRules_set, length_delete.
      * lia.
      * apply lookup_lt_is_Some. lia.
    + rewrite cssRules_set, length_delete.
      * lia.
      * apply lookup_lt_is_Some. lia.
Qed.

Lemma clearRules_loop_removals (n : nat) :
  clearRules_loop n = removals (reverse (seq 0 n)).
Proof.
  induction n as [|i IH]; [reflexivity|].
  rewrite seq_S, reverse_snoc. simpl. by rewrite IH.
Qed.

(** C9: whatever the rule list, [clearRules] returns and leaves it empty;
    it removes at the highest index first and goes down to 0; on an empty
    list it removes nothing, throws nothing and leaves the handle as it
    is; and calling it twice is calling it once. *)
Theorem clearRules_empties h :
  sheet_ok h ->
  clearRules h = Return tt (set_cssRules [] h)
  /\ length (cssRules (sheet (final (clearRules h)))) = 0%nat
  /\ clearRules h =
     removals (reverse (seq 0 (length (cssRules (sheet h))))) h
  /\ (cssRules (sheet h) = [] -> clearRules h = Return tt h)
  /\ (clearRules ;; clearRules) h = clearRules h.
Proof.
  intros Hok.
  assert (clearRules h = Return tt (set_cssRules [] h)) as Hclear.
  { unfold clearRules. rewrite clearRules_loop_drop by auto.
    by rewrite drop_all. }
  split; [exact Hclear|]. split; [by rewrite Hclear|].
  split; [unfold clearRules; by rewrite clearRules_loop_removals|].
  split.
  - intros Hnil. rewrite Hclear, <- Hnil. by rewrite set_cssRules_same.
  - by rewrite bind_unfold, Hclear.
Qed.

Lemma clearRules_empties_witness :
  let h := handle_of [bare ".x"; bare ".y"; bare ".x"] in
  sheet_ok h /\ clearRules h = Return tt (set_cssRules [] h).
Proof.
  intros h.
  assert (sheet_ok h) as Hok by (unfold sheet_ok; simpl; lia).
  split; [exact Hok|].
  exact (proj1 (clearRules_empties h Hok)).
Defined.

End Rules.

(** ** [removeCSS] *)

Section RemoveCSS.

Implicit Types (h : Elan) (rs : list CSSRule) (r : CSSRule).

Lemma item_rule (n : number) rs r :
  item n rs = Some r ->
  exists i : nat, n = Finite (Z.of_nat i) /\ rs !! i = Some r.
Proof.
  destruct n as [| | |z]; try discriminate. unfold item.
  destruct (Z.leb_spec 0 z); [|discriminate].
  intros Hr. exists (Z.to_nat z). by rewrite Z2Nat.id.
Qed.

(** C5, as the code has it: with a numeric index other than NaN at which
    the list has a rule, [removeCSS] removes that rule, and no other, when
    its selector text is [selector], and otherwise returns without an error
    and leaves the handle as it is; with one at which the list has no rule
    (a negative integer, an integer from the length on, an infinity) it
    throws a [TypeError], the handle being as before; with NaN it does what
    it does without an index. *)
Theorem removeCSS_at_index (selector : string) (n : number) h :
  sheet_ok h ->
  (forall (i : nat) r,
     n = Finite (Z.of_nat i) ->
     cssRules (sheet h) !! i = Some r ->
     (selectorText r = selector ->
      removeCSS selector (VNumber n) h =
      Return tt (set_cssRules (delete i (cssRules (sheet h))) h)
      /\ S (length (delete i (cssRules (sheet h)))) =
         length (cssRules (sheet h)))
     /\ (selectorText r <> selector ->
         removeCSS selector (VNumber n) h = Return tt h))
  /\ (isNaN n = false ->
      (forall z : Z,
         n = Finite z -> z < 0 \/ Z.of_nat (length (cssRules (sheet h))) <= z) ->
      removeCSS selector (VNumber n) h = Throw TypeError h)
  /\ (n = NaN ->
      removeCSS selector (VNumber n) h = removeCSS selector VUndefined h).
Proof.
  intros Hok. split; [|split].
  - intros i r -> Hr.
    assert (i < length (cssRules (sheet h)))%nat as Hi
      by eauto using lookup_lt_Some.
    unfold removeCSS.
    change (valid_index (VNumber (Finite (Z.of_nat i))))
      with (Some (Finite (Z.of_nat i))).
    cbv beta iota. rewrite item_nat, Hr.
    split.
    + intros Hsel. apply String.eqb_eq in Hsel. rewrite Hsel.
      split; [by apply removeRule_at|].
      rewrite length_delete by eauto. lia.
    + intros Hsel. apply String.eqb_neq in Hsel. by rewrite Hsel.
  - intros Hnan Hout. unfold removeCSS, valid_index. simpl typeof.
    rewrite Hnan. simpl.
    destruct (item n (cssRules (sheet h))) as [r|] eqn:Hitem; [|done].
    destruct (item_rule _ _ _ Hitem) as (i & -> & Hr).
    apply lookup_lt_Some in Hr. destruct (Hout _ eq_refl); lia.
  - by intros ->.
Qed.

Lemma removeCSS_at_index_witness :
  let h := handle_of [bare ".x"; bare ".y"; bare ".x"] in
  (sheet_ok h /\ cssRules (sheet h) !! 2%nat = Some (bare ".x")
   /\ isNaN (Finite 3) = false)
  /\ removeCSS ".x" (VNumber (Finite 2)) h =
     Return tt (set_cssRules [bare ".x"; bare ".y"] h)
  /\ removeCSS ".y" (VNumber (Finite 2)) h = Return tt h
  /\ removeCSS ".x" (VNumber (Finite 3)) h = Throw TypeError h.
Proof.
  intros h.
  assert (sheet_ok h) as Hok by (unfold sheet_ok; simpl; lia).
  assert (cssRules (sheet h) !! 2%nat = Some (bare ".x")) as Hr
    by reflexivity.
  split; [done|]. split; [|split].
  - destruct (removeCSS_at_index ".x" (Finite 2) h Hok) as [Hat _].
    destruct (Hat 2%nat (bare ".x") eq_refl Hr) as [Heq _].
    exact (proj1 (Heq eq_refl)).
  - destruct (removeCSS_at_index ".y" (Finite 2) h Hok) as [Hat _].
    destruct (Hat 2%nat (bare ".x") eq_refl Hr) as [_ Hneq].
    apply Hneq. discriminate.
  - destruct (removeCSS_at_index ".x" (Finite 3) h Hok) as (_ & Hnone & _).
    apply Hnone; [reflexivity|].
    intros z Hz. injection Hz as <-. right. simpl. lia.
Defined.

(** C5, as the spec has it, fails: at the index 2 of a list of two rules,
    and at the index 0 of an empty list, there is no rule whose selector
    could match, and [removeCSS] throws a [TypeError]. *)
Lemma removeCSS_index_without_rule :
  removeCSS ".x" (VNumber (Finite 2)) (handle_of [bare ".x"; bare ".y"]) =
  Throw TypeError (handle_of [bare ".x"; bare ".y"])
  /\ removeCSS ".x" (VNumber (Finite 0)) (handle_of []) =
     Throw TypeError (handle_of []).
Proof. split; reflexivity. Qed.

(** C2 on the code: the scan of [removeCSS] without an index goes up while
    the list shrinks under it.  On [.x .y .x] both [.x] rules go, and the
    read at index 2 of what is then a one-rule list throws; on [.x .x .y]
    the second [.x] moves to index 0 after the first removal, is never
    looked at, and stays. *)
Theorem removeCSS_scan_on_shrinking_list :
  removeCSS ".x" VUndefined (handle_of [bare ".x"; bare ".y"; bare ".x"]) =
  Throw TypeError (handle_of [bare ".y"])
  /\ removeCSS ".x" VUndefined (handle_of [bare ".x"; bare ".x"; bare ".y"]) =
     Throw TypeError (handle_of [bare ".x"; bare ".y"]).
Proof. split; reflexivity. Qed.

End RemoveCSS.

(** ** The declaration text built by [addCSS] *)

Section DeclarationText.

Lemma concat_all_cons (p : string) (l : list string) :
  concat_all (p :: l) = p +:+ concat_all l.
Proof. reflexivity. Qed.

Lemma concat_all_nil : concat_all [] = "".
Proof. reflexivity. Qed.

Lemma concat_all_app (l1 l2 : list string) :
  concat_all (l1 ++ l2) = concat_all l1 +:+ concat_all l2.
Proof.
  induction l1 as [|p l1 IH]; [reflexivity|].
  rewrite <- app_comm_cons, !concat_all_cons. by rewrite IH, append_assoc.
Qed.


Lemma fold_left_segments (prop : string) (elems : list value) (rules : string) :
  fold_left (fun rules e => rules +:+ prop +:+ ":" +:+ ToString e +:+ ";")
    elems rules =
  rules +:+ concat_all (segment prop <$> (ToString <$> elems)).
Proof.
  revert rules. induction elems as [|e elems IH]; intros rules.
  - simpl. by rewrite concat_all_nil, append_nil_r.
  - simpl. rewrite IH, concat_all_cons. unfold segment.
    by rewrite !append_assoc.
Qed.

(** A property adds its own text to [rules], whatever [rules] holds. *)
Lemma add_property_text (rules : string) (entry : string * value) :
  add_property rules entry = rules +:+ property_text entry.
Proof.
  destruct entry as [name v]. unfold add_property, property_text. simpl.
  destruct v; simpl; try (by rewrite concat_all_nil, append_nil_r).
  - rewrite concat_all_cons, concat_all_nil. unfold segment.
    by rewrite !append_assoc, append_nil_r.
  - apply fold_left_segments.
Qed.

Lemma fold_left_add_property (props : list (string * value)) (rules : string) :
  fold_left add_property props rules =
  rules +:+ concat_all (property_text <$> props).
Proof.
  revert rules. induction props as [|p props IH]; intros rules.
  - simpl. by rewrite concat_all_nil, append_nil_r.
  - simpl. rewrite IH, add_property_text, concat_all_cons.
    by rewrite append_assoc.
Qed.

(** A block adds its own text to [rules], whatever [rules] holds. *)
Lemma add_block_text (rules : string) (block : value) :
  add_block rules block = rules +:+ block_text block.
Proof. apply fold_left_add_property. Qed.

Lemma declares_false_text (name : string) (v : value) :
  declares v = false -> property_text (name, v) = "".
Proof. by destruct v. Qed.

Lemma concat_all_filter_declares (props : list (string * value)) :
  concat_all (property_text <$> List.filter (fun p => declares p.2) props) =
  concat_all (property_text <$> props).
Proof.
  induction props as [|[name v] props IH]; [reflexivity|].
  cbn [List.filter snd]. destruct (declares v) eqn:Hv.
  - rewrite !fmap_cons, !concat_all_cons. by rewrite IH.
  - rewrite fmap_cons, concat_all_cons, declares_false_text by done.
    by rewrite IH.
Qed.

Lemma ToString_strings (vs : list string) : ToString <$> (VString <$> vs) = vs.
Proof.
  induction vs as [|v vs IH]; [reflexivity|].
  rewrite !fmap_cons, IH. reflexivity.
Qed.

End DeclarationText.

(** ** The conversion of property names *)

Section PropertyNames.

Lemma is_upper_not_lower (c : ascii) : is_upper c = true -> is_lower c = false.
Proof.
  unfold is_upper, is_lower. intros H.
  apply andb_true_iff in H as [_ H]. apply N.leb_le in H.
  apply andb_false_iff. left. apply N.leb_gt. lia.
Qed.

Lemma lower_char_not_upper (c : ascii) : is_upper (lower_char c) = false.
Proof. by destruct c as [[] [] [] [] [] [] [] []]. Qed.

Lemma toLowerCase_no_upper (s : string) : has_upper (toLowerCase s) = false.
Proof.
  induction s as [|c s IH]; [reflexivity|].
  simpl. by rewrite lower_char_not_upper, IH.
Qed.

(** The scan of the regular expression, which goes on after the two
    characters of a match, puts the hyphens where the position-by-position
    reading puts them: the second character of a match is uppercase, so no
    match starts at it. *)
Lemma replace_camel_hyphenate_step (s : string) :
  replace_camel s = hyphenate s
  /\ forall c, replace_camel (String c s) = hyphenate (String c s).
Proof.
  induction s as [|c2 rest [IH1 IH2]].
  - split; [reflexivity|]. intros c. simpl. by rewrite andb_false_r.
  - split; [apply IH2|]. intros c1.
    change (replace_camel (String c1 (String c2 rest)))
      with (if is_lower c1 && is_upper c2
            then String c1 (String "-" (String c2 (replace_camel rest)))
            else String c1 (replace_camel (String c2 rest))).
    change (hyphenate (String c1 (String c2 rest)))
      with (String c1
              (if is_lower c1 && is_upper c2
               then String "-" (hyphenate (String c2 rest))
               else hyphenate (String c2 rest))).
    destruct (is_lower c1 && is_upper c2) eqn:Hmatch.
    + apply andb_true_iff in Hmatch as [_ Hup].
      simpl hyphenate. by rewrite (is_upper_not_lower c2 Hup), IH1.
    + by rewrite IH2.
Qed.

Lemma replace_camel_hyphenate (s : string) : replace_camel s = hyphenate s.
Proof. apply replace_camel_hyphenate_step. Qed.

End PropertyNames.

(** ** [addCSS] *)

Section AddCSS.

Implicit Types (h : Elan) (rs : list CSSRule) (entries : list (string * value)).

Lemma length_added_rules (rules : string) entries :
  length (added_rules rules entries) = length entries.
Proof.
  revert rules. induction entries as [|[sel block] rest IH]; intros rules;
    [reflexivity|].
  simpl. by rewrite IH.
Qed.

Lemma added_rules_app (rules : string) (pre post : list (string * value)) :
  added_rules rules (pre ++ post) =
  added_rules rules pre ++ added_rules (fold_left add_block pre.*2 rules) post.
Proof.
  revert rules. induction pre as [|[sel block] pre IH]; intros rules;
    [reflexivity|].
  simpl. by rewrite IH.
Qed.


(** With a primitive to insert and no valid index, the loop over the
    selectors returns, having appended one rule per selector. *)
Lemma addCSS_loop_append entries (index : value) (rules : string) h :
  has_insertRule (sheet h) || has_addRule (sheet h) = true ->
  valid_index index = None ->
  all_objects entries ->
  room_for (length entries) h ->
  addCSS_loop entries index rules h =
  Return tt (set_cssRules (cssRules (sheet h) ++ added_rules rules entries) h).
Proof.
  intros Hprim Hidx. revert rules h Hprim.
  induction entries as [|[sel block] rest IH]; intros rules h Hprim Hobj Hroom.
  - simpl. unfold ret. by rewrite app_nil_r, set_cssRules_same.
  - apply Forall_cons in Hobj as [Hblock Hobj]. simpl in Hblock.
    unfold room_for in Hroom. simpl in Hroom.
    simpl. rewrite Hblock. simpl.
    rewrite bind_unfold, addRule_append; auto;
      [|unfold sheet_ok; lia].
    rewrite IH; auto.
    + rewrite cssRules_set, set_cssRules_twice.
      by rewrite <- app_assoc.
    + unfold room_for. rewrite cssRules_set, length_app. simpl. lia.
Qed.

(** The loop over the selectors throws at a block that is not of type
    object, with the handle as the selectors before it left it. *)
Lemma addCSS_loop_invalid_block (pre post : list (string * value))
  (selector : string) (bad : value) (index : value) (rules : string) h :
  typeof bad <> "object" ->
  addCSS_loop (pre ++ (selector, bad) :: post) index rules h =
  match addCSS_loop pre index rules h with
  | Return _ h' =>
      Throw (Error ("Invalid style block " +:+ selector +:+ ":" +:+ ToString bad)) h'
  | Throw e h' => Throw e h'
  end.
Proof.
  intros Hbad. revert rules h.
  induction pre as [|[sel block] pre IH]; intros rules h.
  - simpl. apply String.eqb_neq in Hbad. by rewrite Hbad.
  - simpl. destruct (negb (typeof block =? "object")%string); [reflexivity|].
    rewrite !bind_unfold.
    destruct (addRule sel (add_block rules block) index h); [apply IH|done].
Qed.

End AddCSS.

(** ** What [addCSS] does with its argument *)

Section AddCSSClaims.

Implicit Types (h : Elan) (rs : list CSSRule) (entries : list (string * value)).

(** C1 on the code: the variable [rules] is set to the empty string once,
    before the loop over the selectors, and not again.  With two selectors
    the rule of the second holds the declaration of the first in front of
    its own. *)
Theorem addCSS_rules_carried_over :
  addCSS
    (VObject [(".a", VObject [("color", VString "red")]);
              (".b", VObject [("margin", VString "0")])])
    VUndefined (handle_of []) =
  Return tt
    (handle_of [mkRule ".a" "color:red;"; mkRule ".b" "color:red;margin:0;"])
  /\ block_text (VObject [("margin", VString "0")]) = "margin:0;".
Proof. split; reflexivity. Qed.

(** C4, as the code has it: [addCSS] throws [Error("Invalid CSS object " +
    css)], the handle untouched, when [typeof css] is not ["object"].
    Otherwise it goes through the keys of [css] (the indices of an array,
    none for [null], on which it returns at once); at the first key whose
    value is not of type object it throws [Error("Invalid style block " +
    key + ":" + value)], and the handle is then as the keys before it left
    it: their rules are there, none is added for the offending one.  A
    value that is [null] or an array is of type object and is not refused:
    its key gets a rule. *)
Theorem addCSS_invalid_input (index : value) h :
  (forall css : value,
     typeof css <> "object" ->
     addCSS css index h = Throw (Error ("Invalid CSS object " +:+ ToString css)) h)
  /\ (forall (css : value) (pre post : list (string * value))
             (selector : string) (bad : value),
        typeof css = "object" ->
        for_in css = pre ++ (selector, bad) :: post ->
        typeof bad <> "object" ->
        addCSS css index h =
        match addCSS (VObject pre) index h with
        | Return _ h' =>
            Throw (Error ("Invalid style block " +:+ selector +:+ ":"
                          +:+ ToString bad)) h'
        | Throw e h' => Throw e h'
        end)
  /\ (forall (css : value) (pre post : list (string * value))
             (selector : string) (bad : value),
        typeof css = "object" ->
        for_in css = pre ++ (selector, bad) :: post ->
        typeof bad <> "object" ->
        has_insertRule (sheet h) || has_addRule (sheet h) = true ->
        no_index index ->
        all_objects pre ->
        room_for (length pre) h ->
        addCSS css index h =
        Throw (Error ("Invalid style block " +:+ selector +:+ ":"
                      +:+ ToString bad))
          (set_cssRules (cssRules (sheet h) ++ added_rules "" pre) h))
  /\ addCSS VNull index h = Return tt h
  /\ (forall (selector : string) (block : value),
        block = VNull \/ instanceof_Array block = true ->
        has_insertRule (sheet h) || has_addRule (sheet h) = true ->
        no_index index ->
        room_for 1 h ->
        addCSS (VObject [(selector, block)]) index h =
        Return tt
          (set_cssRules
             (cssRules (sheet h) ++ [mkRule selector (block_text block)]) h)).
Proof.
  assert (forall css, typeof css = "object" ->
            addCSS css index h = addCSS_loop (for_in css) index "" h) as Hloop.
  { intros css Hcss. unfold addCSS. by rewrite Hcss. }
  split; [|split; [|split; [|split]]].
  - intros css Hcss. unfold addCSS.
    apply String.eqb_neq in Hcss. by rewrite Hcss.
  - intros css pre post selector bad Hcss Hkeys Hbad.
    rewrite Hloop, Hkeys by done.
    change (addCSS (VObject pre) index h) with (addCSS_loop pre index "" h).
    by apply addCSS_loop_invalid_block.
  - intros css pre post selector bad Hcss Hkeys Hbad Hprim Hidx Hobj Hroom.
    rewrite Hloop, Hkeys by done.
    rewrite addCSS_loop_invalid_block by done.
    by rewrite addCSS_loop_append by auto using valid_index_not_number.
  - reflexivity.
  - intros selector block Hblock Hprim Hidx Hroom.
    assert (typeof block = "object") as Hty.
    { destruct Hblock as [-> | Harr]; [done|]. by destruct block. }
    change (addCSS (VObject [(selector, block)]) index h)
      with (addCSS_loop [(selector, block)] index "" h).
    rewrite addCSS_loop_append; auto using valid_index_not_number.
    + simpl. by rewrite add_block_text.
    + by repeat constructor.
Qed.

Lemma addCSS_invalid_input_witness :
  let h := handle_of [bare ".x"] in
  let pre := [(".a", VObject [("color", VString "red")])] in
  (typeof (VString "x") <> "object"
   /\ has_insertRule (sheet h) || has_addRule (sheet h) = true
   /\ no_index VUndefined /\ all_objects pre /\ room_for (length pre) h)
  /\ addCSS (VNumber (Finite 42)) VUndefined h =
     Throw (Error "Invalid CSS object 42") h
  /\ addCSS (VObject (pre ++ [(".b", VString "x")])) VUndefined h =
     Throw (Error "Invalid style block .b:x")
       (set_cssRules [bare ".x"; mkRule ".a" "color:red;"] h)
  /\ addCSS (VArray [VString "x"]) VUndefined h =
     Throw (Error "Invalid style block 0:x") h
  /\ addCSS (VObject [(".c", VArray [VString "x"])]) VUndefined h =
     Return tt (set_cssRules [bare ".x"; mkRule ".c" "0:x;"] h).
Proof.
  intros h pre.
  assert (typeof (VString "x") <> "object") as Hbad by discriminate.
  assert (has_insertRule (sheet h) || has_addRule (sheet h) = true) as Hprim
    by reflexivity.
  assert (no_index VUndefined) as Hidx by (left; discriminate).
  assert (all_objects pre) as Hobj by (repeat constructor).
  assert (room_for (length pre) h) as Hroom
    by (unfold room_for; simpl; lia).
  split; [done|].
  destruct (addCSS_invalid_input VUndefined h)
    as (Htop & Hblock & Hstate & _ & Hkept).
  split; [|split; [|split]].
  - apply (Htop (VNumber (Finite 42))). discriminate.
  - exact (Hstate (VObject (pre ++ [(".b", VString "x")])) pre [] ".b"
             (VString "x") eq_refl eq_refl Hbad Hprim Hidx Hobj Hroom).
  - exact (Hblock (VArray [VString "x"]) [] [] "0" (VString "x")
             eq_refl eq_refl Hbad).
  - exact (Hkept ".c" (VArray [VString "x"]) (or_intror eq_refl) Hprim Hidx
             Hroom).
Defined.

(** C4, as the spec has it, fails: [null] is not a mapping, and [addCSS]
    neither throws on it as its argument nor as the value of a selector,
    for which it adds a rule. *)
Lemma addCSS_null_accepted :
  addCSS VNull VUndefined (handle_of []) = Return tt (handle_of [])
  /\ addCSS (VObject [(".a", VNull)]) VUndefined (handle_of []) =
     Return tt (handle_of [bare ".a"]).
Proof. split; reflexivity. Qed.

(** C7: the name that [addCSS] writes for a property is the name with a
    hyphen between each lowercase letter and an uppercase letter after it,
    then in lowercase; every declaration of the property carries it; it has
    no uppercase letter; and for [{".b": {backgroundSize: "cover"}}] the
    declaration text is [background-size:cover;], in which
    [backgroundSize] does not occur. *)
Theorem addCSS_property_names :
  (forall name : string, kebab name = kebab_case name)
  /\ (forall (rules name : string) (v : value),
        add_property rules (name, v) =
        rules +:+ concat_all (segment (kebab_case name) <$> declared_values v))
  /\ (forall name : string, has_upper (kebab name) = false)
  /\ (kebab "backgroundSize" = "background-size"
      /\ addCSS (VObject [(".b", VObject [("backgroundSize", VString "cover")])])
           VUndefined (handle_of []) =
         Return tt (handle_of [mkRule ".b" "background-size:cover;"])
      /\ occurs_in "background-size:cover;" "background-size:cover;" = true
      /\ occurs_in "backgroundSize" "background-size:cover;" = false).
Proof.
  assert (forall name, kebab name = kebab_case name) as Hkebab.
  { intros name. unfold kebab, kebab_case. by rewrite replace_camel_hyphenate. }
  split; [exact Hkebab|]. split; [|split].
  - intros rules name v. rewrite add_property_text. unfold property_text.
    simpl. by rewrite Hkebab.
  - intros name. apply toLowerCase_no_upper.
  - by repeat split.
Qed.

(** C8: a property whose value is an array of strings gives one
    declaration per entry, in the order of the array, all under the
    converted name of the property; they stand together in the text of the
    one rule that [addCSS] adds for the selector of the block. *)
Theorem addCSS_array_property
  (before after : list (string * value)) (selector : string)
  (pre post : list (string * value)) (name : string) (vs : list string)
  (index : value) h :
  let block := VObject (pre ++ (name, VArray (VString <$> vs)) :: post) in
  let css := VObject (before ++ (selector, block) :: after) in
  let segments := concat_all (segment (kebab name) <$> vs) in
  has_insertRule (sheet h) || has_addRule (sheet h) = true ->
  no_index index ->
  all_objects (before ++ after) ->
  room_for (S (length (before ++ after))) h ->
  (forall rules : string,
     add_property rules (name, VArray (VString <$> vs)) = rules +:+ segments)
  /\ exists (rs' : list CSSRule) (text_before text_after : string),
      addCSS css index h = Return tt (set_cssRules rs' h)
      /\ length rs' =
         (length (cssRules (sheet h)) + S (length (before ++ after)))%nat
      /\ rs' !! (length (cssRules (sheet h)) + length before)%nat =
         Some (mkRule selector (text_before +:+ segments +:+ text_after)).
Proof.
  intros block css segments Hprim Hidx Hobj Hroom.
  assert (property_text (name, VArray (VString <$> vs)) = segments) as Hprop.
  { unfold property_text. simpl. by rewrite ToString_strings. }
  split; [intros rules; by rewrite add_property_text, Hprop|].
  apply Forall_app in Hobj as [Hbefore Hafter].
  set (carried := fold_left add_block before.*2 "").
  exists (cssRules (sheet h) ++ added_rules "" (before ++ (selector, block) :: after)),
    (carried +:+ concat_all (property_text <$> pre)),
    (concat_all (property_text <$> post)).
  split; [|split].
  - unfold css, addCSS. simpl. apply addCSS_loop_append;
      auto using valid_index_not_number.
    + apply Forall_app. split; [done|]. by apply Forall_cons.
    + unfold room_for in *. rewrite length_app in *. simpl. lia.
  - rewrite length_app, length_added_rules, !length_app. simpl. lia.
  - rewrite lookup_app_r by lia.
    replace (length (cssRules (sheet h)) + length before
             - length (cssRules (sheet h)))%nat
      with (length before) by lia.
    rewrite added_rules_app. simpl. fold carried.
    rewrite list_lookup_middle by (by rewrite length_added_rules).
    rewrite add_block_text. unfold block_text, block. simpl.
    rewrite fmap_app, fmap_cons, concat_all_app, concat_all_cons, Hprop.
    by rewrite !append_assoc.
Qed.

Lemma addCSS_array_property_witness :
  let h := handle_of [bare ".x"] in
  let css :=
    VObject [(".c", VObject [("display", VArray [VString "-webkit-box"; VString "flex"])])] in
  (has_insertRule (sheet h) || has_addRule (sheet h) = true
   /\ no_index VUndefined /\ all_objects [] /\ room_for 1 h)
  /\ exists (rs' : list CSSRule) (text_before text_after : string),
      addCSS css VUndefined h = Return tt (set_cssRules rs' h)
      /\ length rs' = 2%nat
      /\ rs' !! 1%nat =
         Some (mkRule ".c"
                 (text_before +:+ "display:-webkit-box;display:flex;"
                  +:+ text_after)).
Proof.
  intros h css.
  assert (has_insertRule (sheet h) || has_addRule (sheet h) = true) as Hprim
    by reflexivity.
  assert (no_index VUndefined) as Hidx by (left; discriminate).
  assert (all_objects ([] ++ [])) as Hobj by constructor.
  assert (room_for (S (length (@nil (string * value) ++ []))) h) as Hroom
    by (unfold room_for; simpl; lia).
  split; [done|].
  exact (proj2 (addCSS_array_property [] [] ".c" [] [] "display"
                  ["-webkit-box"; "flex"] VUndefined h Hprim Hidx Hobj Hroom)).
Defined.

Lemma addCSS_loop_filter_declares (before after : list (string * value))
  (selector : string) (props : list (string * value)) (index : value)
  (rules : string) h :
  addCSS_loop (before ++ (selector, VObject props) :: after) index rules h =
  addCSS_loop
    (before
     ++ (selector, VObject (List.filter (fun p => declares p.2) props)) :: after)
    index rules h.
Proof.
  revert rules h. induction before as [|[sel block] before IH]; intros rules h.
  - simpl. unfold add_block. simpl.
    by rewrite !fold_left_add_property, concat_all_filter_declares.
  - simpl. destruct (negb (typeof block =? "object")%string); [reflexivity|].
    rewrite !bind_unfold.
    destruct (addRule sel (add_block rules block) index h); [apply IH|done].
Qed.

(** C10: a property whose value is neither a string nor an array adds
    nothing to the declaration text; a call of [addCSS] goes as it would
    without such properties in the block, so they raise no error; and the
    rule of their selector is added, with the text of the other
    properties. *)
Theorem addCSS_skips_other_values :
  (forall (rules name : string) (v : value),
     typeof v <> "string" -> instanceof_Array v = false ->
     add_property rules (name, v) = rules)
  /\ (forall (before after : list (string * value)) (selector : string)
             (props : list (string * value)) (index : value) h,
        addCSS (VObject (before ++ (selector, VObject props) :: after)) index h =
        addCSS
          (VObject
             (before
              ++ (selector, VObject (List.filter (fun p => declares p.2) props))
                 :: after))
          index h)
  /\ (forall (selector : string) (props : list (string * value))
             (index : value) h,
        has_insertRule (sheet h) || has_addRule (sheet h) = true ->
        no_index index ->
        room_for 1 h ->
        addCSS (VObject [(selector, VObject props)]) index h =
        Return tt
          (set_cssRules
             (cssRules (sheet h)
              ++ [mkRule selector
                    (block_text
                       (VObject (List.filter (fun p => declares p.2) props)))])
             h)).
Proof.
  split; [|split].
  - intros rules name v Hstr Harr. apply String.eqb_neq in Hstr.
    unfold add_property. simpl. by rewrite Hstr, Harr.
  - intros. unfold addCSS. simpl. apply addCSS_loop_filter_declares.
  - intros selector props index h Hprim Hidx Hok.
    change (addCSS (VObject [(selector, VObject props)]) index h)
      with (addCSS_loop [(selector, VObject props)] index "" h).
    rewrite addCSS_loop_append; auto using valid_index_not_number.
    + simpl. rewrite add_block_text. unfold block_text. simpl.
      by rewrite concat_all_filter_declares.
    + by repeat constructor.
Qed.

Lemma addCSS_skips_other_values_witness :
  let h := handle_of [] in
  let props :=
    [("zIndex", VNumber (Finite 3)); ("color", VString "red");
     ("margin", VNull); ("font", VObject [("size", VString "1em")])] in
  (typeof (VNumber (Finite 3)) <> "string"
   /\ instanceof_Array (VNumber (Finite 3)) = false
   /\ has_insertRule (sheet h) || has_addRule (sheet h) = true
   /\ no_index VUndefined /\ room_for 1 h)
  /\ add_property "top:0;" ("zIndex", VNumber (Finite 3)) = "top:0;"
  /\ addCSS (VObject [(".a", VObject props)]) VUndefined h =
     Return tt (set_cssRules [mkRule ".a" "color:red;"] h).
Proof.
  intros h props.
  assert (typeof (VNumber (Finite 3)) <> "string") as Hstr by discriminate.
  assert (has_insertRule (sheet h) || has_addRule (sheet h) = true) as Hprim
    by reflexivity.
  assert (no_index VUndefined) as Hidx by (left; discriminate).
  assert (room_for 1 h) as Hok by (unfold room_for; simpl; lia).
  split; [done|].
  destruct addCSS_skips_other_values as (Hskip & _ & Hrule).
  split.
  - exact (Hskip "top:0;" "zIndex" (VNumber (Finite 3)) Hstr eq_refl).
  - exact (Hrule ".a" props VUndefined h Hprim Hidx Hok).
Defined.

End AddCSSClaims.

(** * Further properties of the code *)

(** ** [addRule] and [removeRule] on the rule list *)

Section RuleListMore.

Implicit Types (h : Elan) (rs : list CSSRule) (r : CSSRule).

Lemma insert_at_lookup_lt (i j : nat) r rs :
  (j < i)%nat -> (i <= length rs)%nat -> insert_at i r rs !! j = rs !! j.
Proof.
  intros Hj Hi. unfold insert_at.
  rewrite lookup_app_l by (rewrite length_take_le; lia).
  by apply lookup_take_lt.
Qed.

Lemma insert_at_lookup_ge (i j : nat) r rs :
  (i <= j)%nat -> (i <= length rs)%nat -> insert_at i r rs !! S j = rs !! j.
Proof.
  intros Hj Hi. unfold insert_at.
  rewrite lookup_app_r by (rewrite length_take_le; lia).
  rewrite length_take_le by lia.
  replace (S j - i)%nat with (S (j - i)) by lia.
  simpl. rewrite lookup_drop. f_equal. lia.
Qed.



Lemma addRule_at_nat selector rules (i : nat) h :
  has_insertRule (sheet h) || has_addRule (sheet h) = true ->
  sheet_ok h ->
  (i <= length (cssRules (sheet h)))%nat ->
  addRule selector rules (VNumber (Finite (Z.of_nat i))) h =
  Return tt
    (set_cssRules (insert_at i (mkRule selector rules) (cssRules (sheet h))) h).
Proof.
  unfold sheet_ok. intros Hprim Hok Hi.
  rewrite (addRule_at selector rules (Finite (Z.of_nat i))); auto.
  - by rewrite to_unsigned_long_small, Nat2Z.id by lia.
  - rewrite to_unsigned_long_small by lia. lia.
Qed.

(** X1: on a sheet with [insertRule] or [addRule], [addRule] at a position
    of the list (or at its end) makes the list one rule longer; the rules
    before the position stay where they are, the new rule is at the
    position, and each rule from the position on is one place further. *)
Theorem addRule_shifts_rules selector rules (i : nat) h :
  has_insertRule (sheet h) || has_addRule (sheet h) = true ->
  sheet_ok h ->
  (i <= length (cssRules (sheet h)))%nat ->
  exists rs' : list CSSRule,
    addRule selector rules (VNumber (Finite (Z.of_nat i))) h =
    Return tt (set_cssRules rs' h)
    /\ length rs' = S (length (cssRules (sheet h)))
    /\ (forall j : nat, (j < i)%nat -> rs' !! j = cssRules (sheet h) !! j)
    /\ rs' !! i = Some (mkRule selector rules)
    /\ (forall j : nat, (i <= j)%nat -> rs' !! S j = cssRules (sheet h) !! j).
Proof.
  intros Hprim Hok Hi.
  exists (insert_at i (mkRule selector rules) (cssRules (sheet h))).
  split; [by apply addRule_at_nat|].
  split; [apply length_insert_at|].
  split; [intros j Hj; by apply insert_at_lookup_lt|].
  split; [by apply insert_at_lookup|].
  intros j Hj. by apply insert_at_lookup_ge.
Qed.

Lemma addRule_shifts_rules_witness :
  let h := handle_of [bare ".x"; bare ".y"] in
  (has_insertRule (sheet h) || has_addRule (sheet h) = true
   /\ sheet_ok h /\ (1 <= length (cssRules (sheet h)))%nat)
  /\ exists rs' : list CSSRule,
      addRule ".n" "top:0;" (VNumber (Finite 1)) h = Return tt (set_cssRules rs' h)
      /\ length rs' = 3%nat
      /\ (forall j : nat, (j < 1)%nat -> rs' !! j = cssRules (sheet h) !! j)
      /\ rs' !! 1%nat = Some (mkRule ".n" "top:0;")
      /\ (forall j : nat, (1 <= j)%nat -> rs' !! S j = cssRules (sheet h) !! j).
Proof.
  intros h.
  assert (has_insertRule (sheet h) || has_addRule (sheet h) = true) as Hprim
    by reflexivity.
  assert (sheet_ok h) as Hok by (unfold sheet_ok; simpl; lia).
  assert (1 <= length (cssRules (sheet h)))%nat as Hi by (simpl; lia).
  split; [done|].
  exact (addRule_shifts_rules ".n" "top:0;" 1 h Hprim Hok Hi).
Defined.

(** X2: [removeRule] at the position of a rule makes the list one rule
    shorter; the rules before the position stay where they are and each
    rule after it comes one place nearer. *)
Theorem removeRule_shifts_rules (i : nat) h :
  sheet_ok h ->
  (i < length (cssRules (sheet h)))%nat ->
  exists rs' : list CSSRule,
    removeRule (Finite (Z.of_nat i)) h = Return tt (set_cssRules rs' h)
    /\ S (length rs') = length (cssRules (sheet h))
    /\ (forall j : nat, (j < i)%nat -> rs' !! j = cssRules (sheet h) !! j)
    /\ (forall j : nat, (i <= j)%nat -> rs' !! j = cssRules (sheet h) !! S j).
Proof.
  intros Hok Hi. exists (delete i (cssRules (sheet h))).
  split; [by apply removeRule_at|].
  split.
  { rewrite length_delete by (apply lookup_lt_is_Some; lia). lia. }
  split; intros j Hj.
  - by apply list_lookup_delete_lt.
  - by apply list_lookup_delete_ge.
Qed.

Lemma removeRule_shifts_rules_witness :
  let h := handle_of [bare ".x"; bare ".y"; bare ".z"] in
  (sheet_ok h /\ (1 < length (cssRules (sheet h)))%nat)
  /\ exists rs' : list CSSRule,
      removeRule (Finite 1) h = Return tt (set_cssRules rs' h)
      /\ S (length rs') = 3%nat
      /\ (forall j : nat, (j < 1)%nat -> rs' !! j = cssRules (sheet h) !! j)
      /\ (forall j : nat, (1 <= j)%nat -> rs' !! j = cssRules (sheet h) !! S j).
Proof.
  intros h.
  assert (sheet_ok h) as Hok by (unfold sheet_ok; simpl; lia).
  assert (1 < length (cssRules (sheet h)))%nat as Hi by (simpl; lia).
  split; [done|].
  exact (removeRule_shifts_rules 1 h Hok Hi).
Defined.





Lemma addRule_index_error selector rules (z : Z) h :
  has_insertRule (sheet h) || has_addRule (sheet h) = true ->
  Z.of_nat (length (cssRules (sheet h))) < z < 2 ^ 32
  \/ Z.of_nat (length (cssRules (sheet h))) - 2 ^ 32 < z < 0 ->
  addRule selector rules (VNumber (Finite z)) h = Throw IndexSizeError h.
Proof.
  intros Hprim Hz.
  assert (Z.of_nat (length (cssRules (sheet h))) < to_unsigned_long (Finite z))
    as Hlt.
  { unfold to_unsigned_long. destruct Hz as [Hz|Hz].
    - rewrite Z.mod_small; lia.
    - rewrite <- (Z.mod_unique z (2 ^ 32) (-1) (z + 2 ^ 32)); lia. }
  assert (sheet_insertRule selector rules (Finite z) h = Throw IndexSizeError h)
    as Hins.
  { unfold sheet_insertRule.
    by destruct (Z.ltb_spec (Z.of_nat (length (cssRules (sheet h))))
                   (to_unsigned_long (Finite z))); [|lia]. }
  unfold addRule, effective_index.
  change (valid_index (VNumber (Finite z))) with (Some (Finite z)).
  cbv beta iota zeta.
  destruct (has_insertRule (sheet h)); [done|].
  destruct (has_addRule (sheet h)); [done|discriminate].
Qed.

(** X5: on a sheet with [insertRule] or [addRule], an integer index beyond
    the end of the list and below 2^32, or a negative one above the length
    of the list less 2^32, makes [addRule] throw the error of the rule
    list, which it does not catch; the handle is as before. *)
Theorem addRule_beyond_end selector rules (z : Z) h :
  has_insertRule (sheet h) || has_addRule (sheet h) = true ->
  Z.of_nat (length (cssRules (sheet h))) < z < 2 ^ 32
  \/ Z.of_nat (length (cssRules (sheet h))) - 2 ^ 32 < z < 0 ->
  addRule selector rules (VNumber (Finite z)) h = Throw IndexSizeError h
  /\ cssRules (sheet (final (addRule selector rules (VNumber (Finite z)) h))) =
     cssRules (sheet h).
Proof.
  intros Hprim Hz. by rewrite addRule_index_error.
Qed.

Lemma addRule_beyond_end_witness :
  let h := handle_of [bare ".x"; bare ".y"] in
  (has_insertRule (sheet h) || has_addRule (sheet h) = true
   /\ (Z.of_nat (length (cssRules (sheet h))) < 3 < 2 ^ 32
       \/ Z.of_nat (length (cssRules (sheet h))) - 2 ^ 32 < 3 < 0))
  /\ addRule ".n" "" (VNumber (Finite 3)) h = Throw IndexSizeError h.
Proof.
  intros h.
  assert (has_insertRule (sheet h) || has_addRule (sheet h) = true) as Hprim
    by reflexivity.
  assert (Z.of_nat (length (cssRules (sheet h))) < 3 < 2 ^ 32
          \/ Z.of_nat (length (cssRules (sheet h))) - 2 ^ 32 < 3 < 0) as Hz
    by (left; simpl; lia).
  split; [done|].
  exact (proj1 (addRule_beyond_end ".n" "" 3 h Hprim Hz)).
Defined.

End RuleListMore.

(** ** The scan of [removeCSS] *)

Section RemoveCSSMore.

Implicit Types (h : Elan) (rs : list CSSRule) (r : CSSRule).

Lemma item_Some (n : number) rs r :
  item n rs = Some r -> exists i : nat, n = Finite (Z.of_nat i) /\ rs !! i = Some r.
Proof.
  destruct n as [| | |z]; try discriminate. unfold item.
  destruct (Z.leb_spec 0 z); [|discriminate].
  intros Hr. exists (Z.to_nat z). by rewrite Z2Nat.id.
Qed.

Lemma others_delete (selector : string) (i : nat) r rs :
  rs !! i = Some r -> selects selector r = true ->
  others selector (delete i rs) = others selector rs.
Proof.
  revert i. induction rs as [|r0 rs IH]; intros i Hr Hsel; [done|].
  destruct i as [|i].
  - injection Hr as ->. unfold others. cbn [delete list_delete List.filter].
    by rewrite Hsel.
  - change (delete (S i) (r0 :: rs)) with (r0 :: delete i rs).
    unfold others in *. cbn [List.filter].
    by rewrite (IH i Hr Hsel).
Qed.

Lemma sheet_ok_delete (i : nat) h :
  sheet_ok h -> sheet_ok (set_cssRules (delete i (cssRules (sheet h))) h).
Proof.
  unfold sheet_ok. rewrite cssRules_set.
  pose proof (sublist_length _ _ (sublist_delete (cssRules (sheet h)) i)).
  lia.
Qed.

Lemma removeCSS_loop_step (selector : string) (n i : nat) h :
  removeCSS_loop selector (S n) i h =
  match cssRules (sheet h) !! i with
  | None => Throw TypeError h
  | Some r =>
      if selects selector r
      then (removeRule (Finite (Z.of_nat i)) ;; removeCSS_loop selector n (S i)) h
      else removeCSS_loop selector n (S i) h
  end.
Proof. cbn [removeCSS_loop]. by rewrite item_nat. Qed.

Lemma removeCSS_loop_keeps_others (selector : string) (n i : nat) h :
  sheet_ok h ->
  others selector (cssRules (sheet (final (removeCSS_loop selector n i h)))) =
  others selector (cssRules (sheet h)).
Proof.
  revert i h. induction n as [|n IH]; intros i h Hok; [done|].
  rewrite removeCSS_loop_step.
  destruct (cssRules (sheet h) !! i) as [r|] eqn:Hr; [|done].
  destruct (selects selector r) eqn:Hsel; [|by apply IH].
  rewrite bind_unfold, removeRule_at by eauto using lookup_lt_Some.
  rewrite IH by by apply sheet_ok_delete.
  rewrite cssRules_set. by eapply others_delete.
Qed.

(** Once the scan has more iterations left than the list has rules from
    its position on, it ends in the read of a rule that is not there. *)
Lemma removeCSS_loop_overrun (selector : string) (n i : nat) h :
  sheet_ok h ->
  (0 < n)%nat ->
  (length (cssRules (sheet h)) < i + n)%nat ->
  exists h', removeCSS_loop selector n i h = Throw TypeError h'.
Proof.
  revert i h. induction n as [|n IH]; intros i h Hok Hn Hlen; [lia|].
  rewrite removeCSS_loop_step.
  destruct (cssRules (sheet h) !! i) as [r|] eqn:Hr; [|by exists h].
  pose proof (lookup_lt_Some _ _ _ Hr) as Hi.
  destruct (selects selector r).
  - rewrite bind_unfold, removeRule_at by done.
    apply IH; [by apply sheet_ok_delete | lia |].
    rewrite cssRules_set, length_delete by eauto. lia.
  - apply IH; [done | lia | lia].
Qed.

(** Over rules that do not have the selector the scan only moves on. *)
Lemma removeCSS_loop_skip (selector : string) (k m i : nat) h :
  (i + k <= length (cssRules (sheet h)))%nat ->
  (forall (j : nat) r,
     (i <= j < i + k)%nat -> cssRules (sheet h) !! j = Some r ->
     selects selector r = false) ->
  removeCSS_loop selector (k + m) i h = removeCSS_loop selector m (i + k) h.
Proof.
  revert i. induction k as [|k IH]; intros i Hlen Hno.
  - by rewrite Nat.add_0_r.
  - change (S k + m)%nat with (S (k + m)). rewrite removeCSS_loop_step.
    destruct (lookup_lt_is_Some_2 (cssRules (sheet h)) i) as [r Hr]; [lia|].
    rewrite Hr, (Hno i r) by (done || lia).
    rewrite IH.
    + f_equal. lia.
    + lia.
    + intros j r' Hj. apply Hno. lia.
Qed.

(** A rule with the selector before the last position makes the scan run
    over the end of the list. *)
Lemma removeCSS_loop_match_before_last (selector : string) (n i j : nat) r h :
  sheet_ok h ->
  (i + n = length (cssRules (sheet h)))%nat ->
  (i <= j)%nat -> (S j < length (cssRules (sheet h)))%nat ->
  cssRules (sheet h) !! j = Some r -> selects selector r = true ->
  exists h', removeCSS_loop selector n i h = Throw TypeError h'.
Proof.
  revert i. induction n as [|n IH]; intros i Hok Hn Hij Hj Hr Hsel; [lia|].
  rewrite removeCSS_loop_step.
  destruct (lookup_lt_is_Some_2 (cssRules (sheet h)) i) as [r0 Hr0]; [lia|].
  rewrite Hr0. destruct (selects selector r0) eqn:Hsel0.
  - rewrite bind_unfold, removeRule_at by (done || lia).
    apply removeCSS_loop_overrun; [by apply sheet_ok_delete | lia |].
    rewrite cssRules_set, length_delete by eauto. lia.
  - assert (i <> j) by (intros ->; congruence).
    apply IH; (done || lia).
Qed.

Lemma removeCSS_scan (selector : string) (index : value) h :
  no_index index ->
  removeCSS selector index h =
  removeCSS_loop selector (length (cssRules (sheet h))) 0 h.
Proof.
  intros Hidx. unfold removeCSS.
  by rewrite valid_index_not_number.
Qed.

(** X6: whatever the index and whether it returns or throws, [removeCSS]
    removes no rule with another selector text: the rules that do not have
    the selector are the same, in the same order, after the call. *)
Theorem removeCSS_keeps_other_rules (selector : string) (index : value) h :
  sheet_ok h ->
  others selector (cssRules (sheet (final (removeCSS selector index h)))) =
  others selector (cssRules (sheet h)).
Proof.
  intros Hok. unfold removeCSS.
  destruct (valid_index index) as [n|]; [|by apply removeCSS_loop_keeps_others].
  destruct (item n (cssRules (sheet h))) as [r|] eqn:Hitem; [|done].
  destruct (item_Some _ _ _ Hitem) as (i & -> & Hr).
  destruct (String.eqb (selectorText r) selector) eqn:Hsel; [|done].
  rewrite removeRule_at by eauto using lookup_lt_Some.
  simpl. by eapply others_delete.
Qed.

Lemma removeCSS_keeps_other_rules_witness :
  let h := handle_of [bare ".x"; bare ".x"; bare ".y"; bare ".x"] in
  sheet_ok h
  /\ others ".x" (cssRules (sheet (final (removeCSS ".x" VUndefined h)))) =
     [bare ".y"].
Proof.
  intros h.
  assert (sheet_ok h) as Hok by (unfold sheet_ok; simpl; lia).
  split; [done|].
  exact (removeCSS_keeps_other_rules ".x" VUndefined h Hok).
Defined.

(** X7: without an index, [removeCSS] returns when no rule before the last
    one has the selector, and throws a [TypeError] when one has. *)
Theorem removeCSS_returns_or_throws (selector : string) (index : value) h :
  sheet_ok h ->
  no_index index ->
  ((forall (i : nat) r,
      cssRules (sheet h) !! i = Some r -> selects selector r = true ->
      S i = length (cssRules (sheet h))) ->
   thrown (removeCSS selector index h) = None)
  /\ (forall (i : nat) r,
        cssRules (sheet h) !! i = Some r -> selects selector r = true ->
        (S i < length (cssRules (sheet h)))%nat ->
        thrown (removeCSS selector index h) = Some TypeError).
Proof.
  intros Hok Hidx. rewrite removeCSS_scan by done. split.
  - intros Hlast. destruct (length (cssRules (sheet h))) as [|k] eqn:Hlen;
      [done|].
    replace (S k) with (k + 1)%nat by lia.
    rewrite removeCSS_loop_skip.
    + simpl plus. rewrite removeCSS_loop_step.
      destruct (lookup_lt_is_Some_2 (cssRules (sheet h)) k) as [r Hr]; [lia|].
      rewrite Hr. destruct (selects selector r); [|done].
      by rewrite bind_unfold, removeRule_at by (done || lia).
    + lia.
    + intros j r Hj Hr. destruct (selects selector r) eqn:Hsel; [|done].
      specialize (Hlast j r Hr Hsel). lia.
  - intros i r Hr Hsel Hi.
    destruct (removeCSS_loop_match_before_last selector
                (length (cssRules (sheet h))) 0 i r h) as [h' Hthrow];
      (done || lia || idtac).
    by rewrite Hthrow.
Qed.

Lemma removeCSS_returns_or_throws_witness :
  let h := handle_of [bare ".y"; bare ".x"; bare ".z"] in
  (sheet_ok h /\ no_index VUndefined)
  /\ thrown (removeCSS ".z" VUndefined h) = None
  /\ thrown (removeCSS ".x" VUndefined h) = Some TypeError.
Proof.
  intros h.
  assert (sheet_ok h) as Hok by (unfold sheet_ok; simpl; lia).
  assert (no_index VUndefined) as Hidx by (left; discriminate).
  split; [done|].
  destruct (removeCSS_returns_or_throws ".z" VUndefined h Hok Hidx)
    as [Hreturns _].
  destruct (removeCSS_returns_or_throws ".x" VUndefined h Hok Hidx)
    as [_ Hthrows].
  split.
  - apply Hreturns. intros [|[|[|i]]] r Hr Hsel; simpl in Hr;
      try discriminate; try reflexivity; injection Hr as <-; discriminate.
  - apply (Hthrows 1%nat (bare ".x")); [reflexivity | reflexivity | simpl; lia].
Defined.

(** X8: without an index, and when no rule has the selector, [removeCSS]
    returns and leaves the handle as it is. *)
Theorem removeCSS_no_match (selector : string) (index : value) h :
  no_index index ->
  Forall (fun r => selects selector r = false) (cssRules (sheet h)) ->
  removeCSS selector index h = Return tt h.
Proof.
  intros Hidx Hno. rewrite removeCSS_scan by done.
  rewrite <- (Nat.add_0_r (length (cssRules (sheet h)))).
  rewrite removeCSS_loop_skip; [done | lia |].
  intros j r _ Hr. rewrite Forall_lookup in Hno. by eapply Hno.
Qed.

Lemma removeCSS_no_match_witness :
  let h := handle_of [bare ".x"; bare ".y"] in
  (no_index VNull
   /\ Forall (fun r => selects ".z" r = false) (cssRules (sheet h)))
  /\ removeCSS ".z" VNull h = Return tt h.
Proof.
  intros h.
  assert (no_index VNull) as Hidx by (left; discriminate).
  assert (Forall (fun r => selects ".z" r = false) (cssRules (sheet h)))
    as Hno by (repeat constructor).
  split; [done|].
  exact (removeCSS_no_match ".z" VNull h Hidx Hno).
Defined.

Lemma removeCSS_scan_last (selector : string) (index : value)
  (pre : list CSSRule) r h :
  sheet_ok h ->
  no_index index ->
  cssRules (sheet h) = pre ++ [r] ->
  Forall (fun r' => selects selector r' = false) pre ->
  selects selector r = true ->
  removeCSS selector index h = Return tt (set_cssRules pre h).
Proof.
  intros Hok Hidx Hrs Hpre Hsel. rewrite removeCSS_scan by done.
  assert (length (cssRules (sheet h)) = (length pre + 1)%nat) as Hlen
    by (by rewrite Hrs, length_app).
  rewrite Hlen, removeCSS_loop_skip.
  - simpl plus. rewrite removeCSS_loop_step.
    assert (cssRules (sheet h) !! length pre = Some r) as Hr
      by (rewrite Hrs; apply list_lookup_middle; done).
    rewrite Hr, Hsel, bind_unfold, removeRule_at by (done || lia).
    cbn [removeCSS_loop]. unfold ret.
    by rewrite Hrs, delete_middle, app_nil_r.
  - lia.
  - intros j r' Hj Hr'. rewrite Forall_lookup in Hpre. apply (Hpre j).
    rewrite Hrs, lookup_app_l in Hr' by lia. done.
Qed.

(** X9: without an index, and when the last rule is the only one with the
    selector, [removeCSS] removes it, and nothing else, and returns. *)
Theorem removeCSS_last_only (selector : string) (index : value)
  (pre : list CSSRule) r h :
  sheet_ok h ->
  no_index index ->
  cssRules (sheet h) = pre ++ [r] ->
  Forall (fun r' => selects selector r' = false) pre ->
  selects selector r = true ->
  removeCSS selector index h = Return tt (set_cssRules pre h).
Proof. apply removeCSS_scan_last. Qed.

Lemma removeCSS_last_only_witness :
  let h := handle_of [bare ".y"; bare ".z"; bare ".x"] in
  (sheet_ok h /\ no_index VUndefined
   /\ cssRules (sheet h) = [bare ".y"; bare ".z"] ++ [bare ".x"]
   /\ Forall (fun r' => selects ".x" r' = false) [bare ".y"; bare ".z"]
   /\ selects ".x" (bare ".x") = true)
  /\ removeCSS ".x" VUndefined h =
     Return tt (set_cssRules [bare ".y"; bare ".z"] h).
Proof.
  intros h.
  assert (sheet_ok h) as Hok by (unfold sheet_ok; simpl; lia).
  assert (no_index VUndefined) as Hidx by (left; discriminate).
  assert (Forall (fun r' => selects ".x" r' = false) [bare ".y"; bare ".z"])
    as Hpre by (repeat constructor).
  split; [done|].
  exact (removeCSS_last_only ".x" VUndefined [bare ".y"; bare ".z"] (bare ".x")
           h Hok Hidx eq_refl Hpre eq_refl).
Defined.

(** X10: with a numeric index at which the list has no rule (an integer
    from the length of the list on, a negative one, an infinity),
    [removeCSS] throws the [TypeError] of the read of [selectorText] on
    [undefined], and the handle is as before. *)
Theorem removeCSS_no_rule_at_index (selector : string) (n : number) h :
  isNaN n = false ->
  (forall z : Z,
     n = Finite z -> z < 0 \/ Z.of_nat (length (cssRules (sheet h))) <= z) ->
  removeCSS selector (VNumber n) h = Throw TypeError h.
Proof.
  intros Hnan Hout. unfold removeCSS, valid_index. simpl typeof.
  rewrite Hnan. simpl.
  destruct (item n (cssRules (sheet h))) as [r|] eqn:Hitem; [|done].
  destruct (item_Some _ _ _ Hitem) as (i & -> & Hr).
  apply lookup_lt_Some in Hr. destruct (Hout _ eq_refl); lia.
Qed.

Lemma removeCSS_no_rule_at_index_witness :
  let h := handle_of [bare ".x"; bare ".y"] in
  (isNaN (Finite 2) = false
   /\ forall z : Z,
       Finite 2 = Finite z ->
       z < 0 \/ Z.of_nat (length (cssRules (sheet h))) <= z)
  /\ removeCSS ".x" (VNumber (Finite 2)) h = Throw TypeError h.
Proof.
  intros h.
  assert (forall z : Z,
            Finite 2 = Finite z ->
            z < 0 \/ Z.of_nat (length (cssRules (sheet h))) <= z) as Hout.
  { intros z Hz. injection Hz as <-. right. simpl. lia. }
  split; [done|].
  exact (removeCSS_no_rule_at_index ".x" (Finite 2) h eq_refl Hout).
Defined.

End RemoveCSSMore.

(** ** [addCSS] on the rule list *)

Section AddCSSMore.

Implicit Types (h : Elan) (rs : list CSSRule) (entries : list (string * value)).






Lemma addRule_sublist selector rules (index : value) h :
  cssRules (sheet h)
    `sublist_of` cssRules (sheet (final (addRule selector rules index h))).
Proof.
  assert (forall n,
            cssRules (sheet h)
              `sublist_of`
              cssRules (sheet (final (sheet_insertRule selector rules n h))))
    as Hins.
  { intros n. unfold sheet_insertRule.
    destruct (Z.of_nat (length (cssRules (sheet h))) <? to_unsigned_long n);
      [done|].
    simpl. unfold insert_at.
    rewrite <- (take_drop (Z.to_nat (to_unsigned_long n)) (cssRules (sheet h)))
      at 1.
    apply sublist_app; [done|]. by apply sublist_cons. }
  unfold addRule, sheet_addRule.
  destruct (has_insertRule (sheet h)); [apply Hins|].
  destruct (has_addRule (sheet h)); [apply Hins|done].
Qed.

Lemma addRule_length selector rules (index : value) h :
  (length (cssRules (sheet (final (addRule selector rules index h))))
   <= S (length (cssRules (sheet h))))%nat.
Proof.
  assert (forall n,
            (length (cssRules (sheet (final (sheet_insertRule selector rules n h))))
             <= S (length (cssRules (sheet h))))%nat) as Hins.
  { intros n. unfold sheet_insertRule.
    destruct (Z.of_nat (length (cssRules (sheet h))) <? to_unsigned_long n);
      simpl; [lia|].
    by rewrite length_insert_at. }
  unfold addRule, sheet_addRule.
  destruct (has_insertRule (sheet h)); [apply Hins|].
  destruct (has_addRule (sheet h)); [apply Hins|simpl; lia].
Qed.

Lemma addCSS_loop_sublist entries (index : value) (rules : string) h :
  cssRules (sheet h)
    `sublist_of` cssRules (sheet (final (addCSS_loop entries index rules h)))
  /\ (length (cssRules (sheet (final (addCSS_loop entries index rules h))))
      <= length (cssRules (sheet h)) + length entries)%nat.
Proof.
  revert rules h. induction entries as [|[sel block] rest IH]; intros rules h.
  - simpl. split; [done|lia].
  - cbn [addCSS_loop]. destruct (negb (typeof block =? "object")%string).
    + simpl. split; [done|lia].
    + rewrite bind_unfold.
      pose proof (addRule_sublist sel (add_block rules block) index h) as Hsub.
      pose proof (addRule_length sel (add_block rules block) index h) as Hlen.
      destruct (addRule sel (add_block rules block) index h) as [[] h'|e h'];
        simpl in Hsub, Hlen.
      * destruct (IH (add_block rules block) h') as [IHsub IHlen].
        split; [by etrans|]. simpl. lia.
      * simpl. split; [done|lia].
Qed.

(** X13: whatever its arguments and whether it returns or throws, [addCSS]
    removes no rule and changes the order of no two rules: the rule list
    before the call is a sublist of the one after it, which has at most one
    more rule for each key of [css]. *)
Theorem addCSS_keeps_rules (css index : value) h :
  cssRules (sheet h) `sublist_of` cssRules (sheet (final (addCSS css index h)))
  /\ (length (cssRules (sheet (final (addCSS css index h))))
      <= length (cssRules (sheet h)) + length (for_in css))%nat.
Proof.
  unfold addCSS. destruct (negb (typeof css =? "object")%string).
  - simpl. split; [done|lia].
  - apply addCSS_loop_sublist.
Qed.

(** X14: on a sheet with [insertRule] or [addRule], an integer index beyond
    the end of the list and below 2^32, or a negative one above the length
    of the list less 2^32, makes [addCSS] throw the error of the rule list
    at its first selector, and no rule is added. *)
Theorem addCSS_index_beyond_end (selector : string) (block : value)
  (rest : list (string * value)) (z : Z) h :
  has_insertRule (sheet h) || has_addRule (sheet h) = true ->
  typeof block = "object" ->
  Z.of_nat (length (cssRules (sheet h))) < z < 2 ^ 32
  \/ Z.of_nat (length (cssRules (sheet h))) - 2 ^ 32 < z < 0 ->
  addCSS (VObject ((selector, block) :: rest)) (VNumber (Finite z)) h =
  Throw IndexSizeError h.
Proof.
  intros Hprim Hblock Hz. unfold addCSS. simpl. rewrite Hblock. simpl.
  by rewrite bind_unfold, addRule_index_error.
Qed.

Lemma addCSS_index_beyond_end_witness :
  let h := handle_of [bare ".x"] in
  (has_insertRule (sheet h) || has_addRule (sheet h) = true
   /\ typeof (VObject [("color", VString "red")]) = "object"
   /\ (Z.of_nat (length (cssRules (sheet h))) < -1 < 2 ^ 32
       \/ Z.of_nat (length (cssRules (sheet h))) - 2 ^ 32 < -1 < 0))
  /\ addCSS (VObject [(".a", VObject [("color", VString "red")]); (".b", VNull)])
       (VNumber (Finite (-1))) h =
     Throw IndexSizeError h.
Proof.
  intros h.
  assert (has_insertRule (sheet h) || has_addRule (sheet h) = true) as Hprim
    by reflexivity.
  assert (Z.of_nat (length (cssRules (sheet h))) < -1 < 2 ^ 32
          \/ Z.of_nat (length (cssRules (sheet h))) - 2 ^ 32 < -1 < 0) as Hz
    by (right; simpl; lia).
  split; [done|].
  exact (addCSS_index_beyond_end ".a" (VObject [("color", VString "red")])
           [(".b", VNull)] (-1) h Hprim eq_refl Hz).
Defined.

End AddCSSMore.

(** ** Property names that are already in lowercase *)

Section PropertyNamesMore.

Lemma is_upper_uppercase (c : ascii) : is_uppercase c = false -> is_upper c = false.
Proof.
  unfold is_uppercase, is_upper. intros H.
  by apply orb_false_iff in H as [H _].
Qed.

Lemma has_uppercase_has_upper (s : string) :
  has_uppercase s = false -> has_upper s = false.
Proof.
  induction s as [|c s IH]; [done|].
  cbn [has_uppercase has_upper]. intros H.
  apply orb_false_iff in H as [Hc H].
  by rewrite (is_upper_uppercase c Hc), (IH H).
Qed.

Lemma hyphenate_no_upper (s : string) : has_upper s = false -> hyphenate s = s.
Proof.
  induction s as [|c s IH]; [done|].
  cbn [has_upper hyphenate]. intros Hup.
  apply orb_false_iff in Hup as [_ Hup].
  rewrite (IH Hup).
  assert (starts_upper s = false) as ->.
  { destruct s as [|c' s]; [done|]. simpl in *.
    by apply orb_false_iff in Hup as [? _]. }
  by rewrite andb_false_r.
Qed.

Lemma toLowerCase_no_uppercase_id (s : string) :
  has_uppercase s = false -> toLowerCase s = s.
Proof.
  induction s as [|c s IH]; [done|].
  cbn [has_uppercase toLowerCase]. intros Hup.
  apply orb_false_iff in Hup as [Hc Hup].
  rewrite (IH Hup). unfold lower_char. by rewrite Hc.
Qed.

Lemma lower_char_not_uppercase (c : ascii) : is_uppercase (lower_char c) = false.
Proof. by destruct c as [[] [] [] [] [] [] [] []]. Qed.

Lemma toLowerCase_no_uppercase (s : string) :
  has_uppercase (toLowerCase s) = false.
Proof.
  induction s as [|c s IH]; [reflexivity|].
  cbn [toLowerCase has_uppercase]. by rewrite lower_char_not_uppercase, IH.
Qed.

Lemma kebab_no_uppercase (s : string) : has_uppercase s = false -> kebab s = s.
Proof.
  intros Hup. unfold kebab.
  rewrite replace_camel_hyphenate, hyphenate_no_upper
    by (by apply has_uppercase_has_upper).
  by apply toLowerCase_no_uppercase_id.
Qed.

(** X15: a property name without an uppercase letter (A to Z or one of the
    accented capitals below U+0100), such as one already written with
    hyphens, is written as it is; so converting a converted name changes
    nothing. *)
Theorem kebab_lowercase_unchanged :
  (forall name : string, has_uppercase name = false -> kebab name = name)
  /\ (forall name : string, kebab (kebab name) = kebab name).
Proof.
  split; [apply kebab_no_uppercase|].
  intros name. apply kebab_no_uppercase. apply toLowerCase_no_uppercase.
Qed.

Lemma kebab_lowercase_unchanged_witness :
  has_uppercase "background-size" = false
  /\ kebab "background-size" = "background-size".
Proof.
  split; [reflexivity|].
  exact (proj1 kebab_lowercase_unchanged "background-size" eq_refl).
Defined.

End PropertyNamesMore.

(** ** [toString] *)

Section ToStringMore.

Variable cssText : CSSRule -> string.

Implicit Types (h : Elan) (rs : list CSSRule) (r : CSSRule).

Lemma toString_loop_all (rest pre : list CSSRule) (text : string) h :
  cssRules (sheet h) = pre ++ rest ->
  toString_loop cssText (length rest) (length pre) text h =
  Return (text +:+ concat_all ((fun r => cssText r +:+ newline) <$> rest)) h.
Proof.
  revert pre text. induction rest as [|r rest IH]; intros pre text Hrs.
  - simpl. unfold ret. by rewrite concat_all_nil, append_nil_r.
  - cbn [length toString_loop]. rewrite item_nat, Hrs, list_lookup_middle by done.
    replace (S (length pre)) with (length (pre ++ [r]))
      by (rewrite length_app; simpl; lia).
    rewrite IH by (by rewrite Hrs, <- app_assoc).
    rewrite fmap_cons, concat_all_cons. by rewrite !append_assoc.
Qed.

Lemma trim_end_newline (s : string) : trim_end (s +:+ newline) = trim_end s.
Proof.
  induction s as [|c s IH]; [reflexivity|].
  rewrite append_cons. cbn [trim_end]. by rewrite IH.
Qed.

Lemma lines_join (parts : list string) :
  parts <> [] ->
  concat_all ((fun p => p +:+ newline) <$> parts) = join newline parts +:+ newline.
Proof.
  induction parts as [|p parts IH]; [done|]. intros _.
  rewrite fmap_cons, concat_all_cons.
  destruct parts as [|p' parts].
  - cbn [fmap list_fmap join]. by rewrite concat_all_nil, append_nil_r.
  - rewrite IH by done.
    change (join newline (p :: p' :: parts))
      with (p +:+ newline +:+ join newline (p' :: parts)).
    by rewrite !append_assoc.
Qed.

Lemma ends_space_trim_end (s : string) : ends_space (trim_end s) = false.
Proof.
  induction s as [|c s IH]; [done|].
  cbn [trim_end]. destruct (trim_end s) as [|c' t] eqn:Ht.
  - simpl. destruct (is_space c) eqn:Hc; simpl; [done|]. by rewrite Hc.
  - rewrite andb_false_r. exact IH.
Qed.

Lemma ends_space_trim_start (s : string) :
  ends_space s = false -> ends_space (trim_start s) = false.
Proof.
  induction s as [|c s IH]; [done|]. intros Hs.
  cbn [trim_start]. destruct (is_space c); [|done].
  apply IH. destruct s; [done|exact Hs].
Qed.

Lemma starts_space_trim_start (s : string) : starts_space (trim_start s) = false.
Proof.
  induction s as [|c s IH]; [done|].
  cbn [trim_start]. destruct (is_space c) eqn:Hc; [done|]. simpl. exact Hc.
Qed.

Lemma toString_value h :
  toString cssText h =
  Return
    (trim (concat_all ((fun r => cssText r +:+ newline) <$> cssRules (sheet h))))
    h.
Proof.
  pose proof (toString_loop_all (cssRules (sheet h)) [] "" h eq_refl) as Hloop.
  change (length (@nil CSSRule)) with 0%nat in Hloop.
  unfold toString. by rewrite bind_unfold, Hloop.
Qed.

(** X16: [toString] never throws and leaves the handle as it is; its text
    is the serialised texts of the rules, in the order of the list, with
    one line feed between each two of them, trimmed: the line feed that
    the loop writes after the last rule is not in it. *)
Theorem toString_joins_rules h :
  toString cssText h =
  Return (trim (join newline (cssText <$> cssRules (sheet h)))) h.
Proof.
  rewrite toString_value. f_equal. unfold trim.
  destruct (cssRules (sheet h)) as [|r rs] eqn:Hrs; [done|].
  change ((fun r => cssText r +:+ newline) <$> r :: rs)
    with (((fun p => p +:+ newline) ∘ cssText) <$> r :: rs).
  by rewrite list_fmap_compose, lines_join, trim_end_newline.
Qed.

(** X17: the text that [toString] returns neither starts nor ends with a
    white space character. *)
Theorem toString_trimmed (text : string) h h' :
  toString cssText h = Return text h' ->
  starts_space text = false /\ ends_space text = false.
Proof.
  rewrite toString_value. intros Heq. injection Heq as <- _. unfold trim.
  split.
  - apply starts_space_trim_start.
  - apply ends_space_trim_start, ends_space_trim_end.
Qed.

(** X18: after [clearRules], [toString] returns the empty string. *)
Theorem clearRules_then_toString h :
  sheet_ok h ->
  (clearRules ;; toString cssText) h = Return "" (set_cssRules [] h).
Proof.
  intros Hok. rewrite bind_unfold. unfold clearRules.
  rewrite clearRules_loop_drop, drop_all by done.
  by rewrite toString_value.
Qed.

End ToStringMore.

Lemma toString_trimmed_witness :
  let h := handle_of [mkRule ".a" "color:red;"; mkRule ".b" " "] in
  toString text_as_given h = Return (".a {color:red;}" +:+ newline +:+ ".b { }") h
  /\ starts_space (".a {color:red;}" +:+ newline +:+ ".b { }") = false
  /\ ends_space (".a {color:red;}" +:+ newline +:+ ".b { }") = false.
Proof.
  intros h.
  assert (toString text_as_given h =
          Return (".a {color:red;}" +:+ newline +:+ ".b { }") h) as Heq
    by reflexivity.
  split; [exact Heq|].
  exact (toString_trimmed text_as_given _ h h Heq).
Defined.

Lemma clearRules_then_toString_witness :
  let h := handle_of [bare ".x"; bare ".y"] in
  sheet_ok h
  /\ (clearRules ;; toString text_as_given) h = Return "" (set_cssRules [] h).
Proof.
  intros h.
  assert (sheet_ok h) as Hok by (unfold sheet_ok; simpl; lia).
  split; [done|].
  exact (clearRules_then_toString text_as_given h Hok).
Defined.

(** ** The attributes set by the constructor *)

Section ConstructorMore.

(** X19: called with a name and a value, the constructor sets the
    attribute only when the value is truthy, and then makes the call of
    [setAttribute] that it makes for the object with that one property;
    with a falsy value, such as the empty string, it sets nothing, while
    the object form still sets the attribute.  An [attr] that is neither a
    string nor of type object sets nothing. *)
Theorem constructor_attribute_forms (name : string) (val : value) :
  (truthy val = true ->
   constructor_setAttribute (VString name) val =
   constructor_setAttribute (VObject [(name, val)]) VUndefined)
  /\ (truthy val = false ->
      constructor_setAttribute (VString name) val = []
      /\ constructor_setAttribute (VObject [(name, val)]) VUndefined =
         [(name, val)])
  /\ (forall attr : value,
        typeof attr <> "string" -> typeof attr <> "object" ->
        constructor_setAttribute attr val = []).
Proof.
  unfold constructor_setAttribute. split; [|split].
  - intros Hval. simpl. by rewrite Hval.
  - intros Hval. simpl. by rewrite Hval.
  - intros attr Hstr Hobj.
    apply String.eqb_neq in Hstr, Hobj. by rewrite Hstr, Hobj.
Qed.

Lemma constructor_attribute_forms_witness :
  (truthy (VString "screen") = true /\ truthy (VString "") = false)
  /\ constructor_setAttribute (VString "media") (VString "screen") =
     [("media", VString "screen")]
  /\ constructor_setAttribute (VString "media") (VString "") = [].
Proof.
  split; [done|]. split.
  - exact (proj1 (constructor_attribute_forms "media" (VString "screen")) eq_refl).
  - exact (proj1 (proj1 (proj2 (constructor_attribute_forms "media" (VString "")))
                    eq_refl)).
Defined.

End ConstructorMore.

(** ** Adding and then removing by selector *)

Section AddThenRemove.

Implicit Types (h : Elan) (rs : list CSSRule).



End AddThenRemove.
